(** * mcp_sheets_server: a shallow embedding and its verified properties

    The program is a tool server over three remote services (tabular
    documents, forms, file listing).  Its logic is a credential routine
    ([get_credentials]) and six tools plus one resource accessor, each of
    which acquires a service handle, issues a request and turns the reply
    into text.

    The embedding follows the Python source function by function:
    - Python values that travel through the tools (arguments, request
      bodies, replies) are the type [json];
    - the effects (token file, identity provider, consent flow, remote
      calls, raised exceptions) live in the monad [M], which threads the
      outside [World], returns a [Result] and writes a log of [Event]s. *)

From Stdlib Require Import ZArith List String Ascii Bool Lia.
From Stdlib Require Import DecimalString.
Import ListNotations.
Open Scope string_scope.
Open Scope Z_scope.

Set Warnings "-register-all".

(** ** Python values *)

(** The values the tools handle: what [json.loads] produces and
    [json.dumps] accepts, without floating-point numbers.  A [dict] keeps
    its insertion order, which [json.dumps] and [repr] expose.  A Python
    [str] is modelled as a [string] holding one code point below 256 per
    character. *)
Inductive json : Type :=
| JNull
| JBool (b : bool)
| JInt (z : Z)
| JStr (s : string)
| JList (l : list json)
| JDict (kv : list (string * json)).

Definition dict : Type := list (string * json).

Module Py.

(** [d.get(key)] on a dict: the first binding of [key]. *)
Fixpoint lookup (key : string) (d : dict) : option json :=
  match d with
  | [] => None
  | (k, v) :: rest => if String.eqb k key then Some v else lookup key rest
  end.

(** [d.get(key, default)]; [d.get(key)] is [get key JNull d]. *)
Definition get (key : string) (default : json) (d : dict) : json :=
  match lookup key d with
  | Some v => v
  | None => default
  end.

(** [d[key] = v]: replaces the value in place when the key exists, adds the
    binding at the end otherwise. *)
Fixpoint setitem (key : string) (v : json) (d : dict) : dict :=
  match d with
  | [] => [(key, v)]
  | (k, v0) :: rest =>
      if String.eqb k key then (k, v) :: rest
      else (k, v0) :: setitem key v rest
  end.

(** Truth value of a [str]: non-empty. *)
Definition truthy_str (s : string) : bool :=
  match s with
  | EmptyString => false
  | String _ _ => true
  end.

(** [str(n)] for an [int]. *)
Definition str_int (z : Z) : string :=
  NilZero.string_of_int (Z.to_int z).

Definition hex_digit (n : N) : ascii :=
  if (n <? 10)%N then ascii_of_N (48 + n) else ascii_of_N (87 + n).

(** Two lower-case hexadecimal digits of a code point below 256. *)
Definition hex2 (c : ascii) : string :=
  let n := N_of_ascii c in
  String (hex_digit (n / 16)) (String (hex_digit (n mod 16)) EmptyString).

Definition code (c : ascii) : N := N_of_ascii c.

Fixpoint contains (q : ascii) (s : string) : bool :=
  match s with
  | EmptyString => false
  | String c rest => Ascii.eqb c q || contains q rest
  end.

Definition squote : ascii := ascii_of_N 39.
Definition dquote : ascii := ascii_of_N 34.
Definition backslash : ascii := ascii_of_N 92.

(** [str.isprintable] on one code point below 256. *)
Definition printable (c : ascii) : bool :=
  let n := code c in
  ((32 <=? n) && (n <? 127) || (161 <=? n) && negb (n =? 173))%N.

Definition repr_char (quote c : ascii) : string :=
  let n := code c in
  if Ascii.eqb c quote || Ascii.eqb c backslash then String backslash (String c EmptyString)
  else if (n =? 9)%N then String backslash "t"
  else if (n =? 10)%N then String backslash "n"
  else if (n =? 13)%N then String backslash "r"
  else if printable c then String c EmptyString
  else String backslash ("x" ++ hex2 c).

Fixpoint repr_chars (quote : ascii) (s : string) : string :=
  match s with
  | EmptyString => EmptyString
  | String c rest => repr_char quote c ++ repr_chars quote rest
  end.

(** [repr(s)] for a [str]: double quotes only when the text holds a single
    quote and no double quote. *)
Definition repr_str (s : string) : string :=
  let quote := if contains squote s && negb (contains dquote s) then dquote else squote in
  String quote (repr_chars quote s ++ String quote EmptyString).

(** [repr(v)]. *)
Fixpoint repr (v : json) : string :=
  match v with
  | JNull => "None"
  | JBool true => "True"
  | JBool false => "False"
  | JInt z => str_int z
  | JStr s => repr_str s
  | JList l => "[" ++ String.concat ", " (map repr l) ++ "]"
  | JDict kv =>
      "{" ++ String.concat ", " (map (fun p => repr_str (fst p) ++ ": " ++ repr (snd p)) kv) ++ "}"
  end.

(** [str(v)], also what an f-string field [{v}] expands to. *)
Definition str (v : json) : string :=
  match v with
  | JStr s => s
  | _ => repr v
  end.

End Py.

(** ** json.dumps(value, indent=2) *)

Module Json.

Definition nl : string := String (ascii_of_N 10) EmptyString.

(** One character inside a JSON string with [ensure_ascii]: everything
    outside [' '..'~'] is escaped, as are the quote and the backslash.
    Code points from 256 up, which [json.dumps] writes with four
    hexadecimal digits or as a surrogate pair, are outside the model of
    [str]. *)
Definition escape_char (c : ascii) : string :=
  let n := Py.code c in
  if Ascii.eqb c Py.dquote || Ascii.eqb c Py.backslash then String Py.backslash (String c EmptyString)
  else if (n =? 10)%N then String Py.backslash "n"
  else if (n =? 13)%N then String Py.backslash "r"
  else if (n =? 9)%N then String Py.backslash "t"
  else if (n =? 12)%N then String Py.backslash "f"
  else if (n =? 8)%N then String Py.backslash "b"
  else if ((32 <=? n) && (n <=? 126))%N then String c EmptyString
  else String Py.backslash ("u00" ++ Py.hex2 c).

Fixpoint escape (s : string) : string :=
  match s with
  | EmptyString => EmptyString
  | String c rest => escape_char c ++ escape rest
  end.

Definition encode_str (s : string) : string :=
  String Py.dquote (escape s ++ String Py.dquote EmptyString).

Fixpoint spaces (n : nat) : string :=
  match n with
  | O => EmptyString
  | S k => " " ++ spaces k
  end.

(** The line break followed by the indentation of nesting depth [lvl],
    two spaces a level. *)
Definition newline_indent (lvl : nat) : string := nl ++ spaces (2 * lvl).

Fixpoint encode (lvl : nat) (v : json) : string :=
  match v with
  | JNull => "null"
  | JBool true => "true"
  | JBool false => "false"
  | JInt z => Py.str_int z
  | JStr s => encode_str s
  | JList [] => "[]"
  | JList l =>
      "[" ++ newline_indent (S lvl)
          ++ String.concat ("," ++ newline_indent (S lvl)) (map (encode (S lvl)) l)
          ++ newline_indent lvl ++ "]"
  | JDict [] => "{}"
  | JDict kv =>
      "{" ++ newline_indent (S lvl)
          ++ String.concat ("," ++ newline_indent (S lvl))
               (map (fun p => encode_str (fst p) ++ ": " ++ encode (S lvl) (snd p)) kv)
          ++ newline_indent lvl ++ "}"
  end.

(** [json.dumps(v, indent=2)]. *)
Definition dumps (v : json) : string := encode 0 v.

End Json.

(** ** Exceptions and results *)

(** The exceptions the program can end with.  [External] stands for an
    exception raised inside a collaborator (identity provider, consent flow,
    remote service), named by its class and message. *)
Inductive exn : Type :=
| UnpicklingError
| AttributeError (msg : string)
| KeyError (key : string)
| TypeError (msg : string)
| External (class msg : string).

Inductive Result (A : Type) : Type :=
| Ok (a : A)
| Raise (e : exn).
Arguments Ok {A} a.
Arguments Raise {A} e.

(** ** The credential and the outside world *)

(** [google.oauth2.credentials.Credentials], reduced to the attributes the
    program reads. *)
Record Credentials : Type := mkCredentials {
  token : option string;
  refresh_token : option string;
  expiry : option Z;
  scopes : list string
}.

(** What the token file can hold: the pickle of a credential, or bytes that
    [pickle.load] rejects. *)
Inductive FileContent : Type :=
| Pickled (c : Credentials)
| Corrupt.

(** A handle as [googleapiclient.discovery.build] returns it. *)
Record Service : Type := mkService {
  serviceName : string;
  version : string;
  credentials : Credentials
}.

(** The requests the tools send, with the keyword arguments of the source. *)
Inductive ApiRequest : Type :=
| files_list (q : string) (pageSize : Z) (fields : string)
| values_get (spreadsheetId range : string)
| values_update (spreadsheetId range valueInputOption : string) (body : json)
| values_append (spreadsheetId range valueInputOption : string) (body : json)
| spreadsheets_create (body : json)
| forms_create (body : json).

(** Everything outside the process.  [token_pickle] is the file
    [token.pickle] next to the script ([None]: no such file); opening it for
    reading when it exists, and for writing, succeeds.  The identity
    provider, the consent flow and the remote services answer as the
    functions say.  [remote n r] is what [execute()] gives for request [r]
    when [n] calls of [execute()] came before it: a JSON object, or a
    raised exception.  It is the service as the handle presents it; what
    the handle does on the wire to get there is the subject of the module
    [Transport] below. *)
Record World : Type := mkWorld {
  token_pickle : option FileContent;
  utcnow : Z;
  GOOGLE_APPLICATION_CREDENTIALS : option string;
  idp_refresh : Credentials -> Result Credentials;
  client_secrets_file : string -> Result unit;
  run_local_server : list string -> Result Credentials;
  remote : nat -> ApiRequest -> Result dict;
  api_calls : nat
}.

(** What an invocation does to the outside, in order. *)
Inductive Event : Type :=
| EvLoad (content : FileContent)
| EvRefresh (c : Credentials) (outcome : Result Credentials)
| EvClientSecrets (path : string) (outcome : Result unit)
| EvConsent (requested : list string) (outcome : Result Credentials)
| EvDump (c : Credentials)
| EvBuild (s : Service)
| EvExecute (s : Service) (r : ApiRequest) (outcome : Result dict).

(** ** The monad of the program *)

Definition M (A : Type) : Type := World -> Result A * World * list Event.

Definition ret {A} (a : A) : M A := fun w => (Ok a, w, []).

Definition bind {A B} (m : M A) (k : A -> M B) : M B :=
  fun w =>
    match m w with
    | (Ok a, w1, log1) =>
        match k a w1 with
        | (r, w2, log2) => (r, w2, (log1 ++ log2)%list)
        end
    | (Raise e, w1, log1) => (Raise e, w1, log1)
    end.

Notation "x <- m ;; k" := (bind m (fun x => k))
  (at level 61, m at next level, right associativity).
Notation "m ;;; k" := (bind m (fun _ => k))
  (at level 61, right associativity).

Definition lift {A} (r : Result A) : M A := fun w => (r, w, []).

Definition result {A} (x : Result A * World * list Event) : Result A := fst (fst x).
Definition world_after {A} (x : Result A * World * list Event) : World := snd (fst x).
Definition log {A} (x : Result A * World * list Event) : list Event := snd x.

(** ** Primitive effects *)

Definition set_token_pickle (f : option FileContent) (w : World) : World :=
  mkWorld f (utcnow w) (GOOGLE_APPLICATION_CREDENTIALS w) (idp_refresh w)
          (client_secrets_file w) (run_local_server w) (remote w) (api_calls w).

Definition count_call (w : World) : World :=
  mkWorld (token_pickle w) (utcnow w) (GOOGLE_APPLICATION_CREDENTIALS w) (idp_refresh w)
          (client_secrets_file w) (run_local_server w) (remote w) (S (api_calls w)).

Definition set_remote (service : nat -> ApiRequest -> Result dict) (w : World) : World :=
  mkWorld (token_pickle w) (utcnow w) (GOOGLE_APPLICATION_CREDENTIALS w) (idp_refresh w)
          (client_secrets_file w) (run_local_server w) service (api_calls w).

(** [os.path.exists(token_path)]. *)
Definition os_path_exists_token : M bool :=
  fun w => (Ok (match token_pickle w with Some _ => true | None => false end), w, []).

(** [with open(token_path, 'rb') as token: pickle.load(token)], run only
    after [os.path.exists] said yes. *)
Definition pickle_load_token : M Credentials :=
  fun w =>
    match token_pickle w with
    | Some (Pickled c) => (Ok c, w, [EvLoad (Pickled c)])
    | Some Corrupt => (Raise UnpicklingError, w, [EvLoad Corrupt])
    | None => (Raise (External "FileNotFoundError" "token.pickle"), w, [])
    end.

(** [with open(token_path, 'wb') as token: pickle.dump(creds, token)], for
    the runs in which the write goes through.  A run in which [open] or
    [pickle.dump] raises, possibly after [open] has emptied the file, has no
    counterpart here. *)
Definition pickle_dump_token (c : Credentials) : M unit :=
  fun w => (Ok tt, set_token_pickle (Some (Pickled c)) w, [EvDump c]).

(** google-auth's [_helpers.REFRESH_THRESHOLD], in seconds. *)
Definition REFRESH_THRESHOLD : Z := 225.

(** [creds.expired] read at time [now]: no expiry never expires; otherwise
    the expiry less the threshold has been reached. *)
Definition expired_at (now : Z) (c : Credentials) : bool :=
  match expiry c with
  | None => false
  | Some e => e - REFRESH_THRESHOLD <=? now
  end.

(** [creds.valid] read at time [now]: a token is held and it is not
    expired. *)
Definition valid_at (now : Z) (c : Credentials) : bool :=
  match token c with
  | Some _ => negb (expired_at now c)
  | None => false
  end.

Definition expired (c : Credentials) : M bool :=
  fun w => (Ok (expired_at (utcnow w) c), w, []).

Definition valid (c : Credentials) : M bool :=
  fun w => (Ok (valid_at (utcnow w) c), w, []).

(** [creds.refresh(Request())]: one exchange with the identity provider;
    the credential object is updated in place on success. *)
Definition refresh (c : Credentials) : M Credentials :=
  fun w => (idp_refresh w c, w, [EvRefresh c (idp_refresh w c)]).

(** [os.getenv(name, default)] for the one variable the program reads. *)
Definition os_getenv_credentials (default : string) : M string :=
  fun w =>
    (Ok (match GOOGLE_APPLICATION_CREDENTIALS w with Some p => p | None => default end), w, []).

(** [InstalledAppFlow.from_client_secrets_file(path, scopes)]. *)
Definition from_client_secrets_file (path : string) (requested : list string) : M (list string) :=
  fun w =>
    match client_secrets_file w path with
    | Ok _ => (Ok requested, w, [EvClientSecrets path (Ok tt)])
    | Raise e => (Raise e, w, [EvClientSecrets path (Raise e)])
    end.

(** [flow.run_local_server(port=0)]. *)
Definition flow_run_local_server (flow : list string) : M Credentials :=
  fun w => (run_local_server w flow, w, [EvConsent flow (run_local_server w flow)]).

(** [build(name, version, credentials=creds)]. *)
Definition build (name ver : string) (creds : Credentials) : M Service :=
  fun w => (Ok (mkService name ver creds), w, [EvBuild (mkService name ver creds)]).

(** [request.execute()]: one call, with the outcome the handle gives it.
    The call is one step here, whatever number of requests the handle put on
    the wire for it (see [Transport.request]). *)
Definition execute (s : Service) (r : ApiRequest) : M dict :=
  fun w =>
    (remote w (api_calls w) r, count_call w, [EvExecute s r (remote w (api_calls w) r)]).

(** ** get_credentials *)

Definition SCOPES : list string :=
  [ "https://www.googleapis.com/auth/spreadsheets";
    "https://www.googleapis.com/auth/forms.body";
    "https://www.googleapis.com/auth/drive.readonly" ].

(** Truth value of [creds.refresh_token]. *)
Definition truthy_token (t : option string) : bool :=
  match t with
  | Some s => Py.truthy_str s
  | None => false
  end.

(** [creds and creds.expired and creds.refresh_token]. *)
Definition can_refresh (creds : option Credentials) : M bool :=
  match creds with
  | None => ret false
  | Some c => e <- expired c ;; ret (e && truthy_token (refresh_token c))
  end.

(** The body of [if not creds or not creds.valid:]. *)
Definition log_in (creds : option Credentials) : M Credentials :=
  refreshable <- can_refresh creds ;;
  creds' <- match creds, refreshable with
            | Some c, true => refresh c
            | _, _ =>
                credentials_path <- os_getenv_credentials "credentials.json" ;;
                flow <- from_client_secrets_file credentials_path SCOPES ;;
                flow_run_local_server flow
            end ;;
  pickle_dump_token creds' ;;;
  ret creds'.

(** [creds] is [None] or a credential object; an object is true, so
    [not creds or not creds.valid] reads [creds.valid] only on an object. *)
Definition get_credentials : M Credentials :=
  found <- os_path_exists_token ;;
  creds <- (if found then c <- pickle_load_token ;; ret (Some c) else ret None) ;;
  match creds with
  | None => log_in None
  | Some c =>
      v <- valid c ;;
      if negb v then log_in (Some c) else ret c
  end.

(** The shape the three handle factories share: [get_credentials], then
    [build]. *)
Definition acquire (name ver : string) : M Service :=
  creds <- get_credentials ;; build name ver creds.

Definition get_sheets_service : M Service :=
  creds <- get_credentials ;; build "sheets" "v4" creds.

Definition get_forms_service : M Service :=
  creds <- get_credentials ;; build "forms" "v1" creds.

Definition get_drive_service : M Service :=
  creds <- get_credentials ;; build "drive" "v3" creds.

(** ** Python operations that can raise *)

Module PyOps.

Fixpoint chars (s : string) : list json :=
  match s with
  | EmptyString => []
  | String c rest => JStr (String c EmptyString) :: chars rest
  end.

(** The items a [for] loop or a generator takes from [v]: the elements of
    a list, the characters of a str, the keys of a dict. *)
Definition iter (v : json) : Result (list json) :=
  match v with
  | JList l => Ok l
  | JStr s => Ok (chars s)
  | JDict kv => Ok (map (fun p => JStr (fst p)) kv)
  | JNull => Raise (TypeError "'NoneType' object is not iterable")
  | JBool _ => Raise (TypeError "'bool' object is not iterable")
  | JInt _ => Raise (TypeError "'int' object is not iterable")
  end.

(** [v[key]] with a str key. *)
Definition getitem (v : json) (key : string) : Result json :=
  match v with
  | JDict kv =>
      match Py.lookup key kv with
      | Some x => Ok x
      | None => Raise (KeyError key)
      end
  | JList _ => Raise (TypeError "list indices must be integers or slices, not str")
  | JStr _ => Raise (TypeError "string indices must be integers, not 'str'")
  | JNull => Raise (TypeError "'NoneType' object is not subscriptable")
  | JBool _ => Raise (TypeError "'bool' object is not subscriptable")
  | JInt _ => Raise (TypeError "'int' object is not subscriptable")
  end.

(** [v.get(key)]: only a dict has the method. *)
Definition get (v : json) (key : string) : Result json :=
  match v with
  | JDict kv => Ok (Py.get key JNull kv)
  | JNull => Raise (AttributeError "'NoneType' object has no attribute 'get'")
  | JBool _ => Raise (AttributeError "'bool' object has no attribute 'get'")
  | JInt _ => Raise (AttributeError "'int' object has no attribute 'get'")
  | JStr _ => Raise (AttributeError "'str' object has no attribute 'get'")
  | JList _ => Raise (AttributeError "'list' object has no attribute 'get'")
  end.

(** [d[k1][k2] = v]: the inner dict is the object held by [d], so the
    assignment shows through [d]. *)
Definition setitem2 (k1 k2 : string) (v : json) (d : dict) : Result dict :=
  match Py.lookup k1 d with
  | Some (JDict inner) => Ok (Py.setitem k1 (JDict (Py.setitem k2 v inner)) d)
  | Some _ => Raise (TypeError "object does not support item assignment")
  | None => Raise (KeyError k1)
  end.

(** A list comprehension whose element expression can raise. *)
Fixpoint comprehension {A B} (f : A -> Result B) (l : list A) : Result (list B) :=
  match l with
  | [] => Ok []
  | x :: rest =>
      match f x with
      | Raise e => Raise e
      | Ok y =>
          match comprehension f rest with
          | Raise e => Raise e
          | Ok ys => Ok (y :: ys)
          end
      end
  end.

End PyOps.

(** ** The tools *)

Definition SPREADSHEET_QUERY : string :=
  "mimeType='application/vnd.google-apps.spreadsheet'".

Definition FILE_FIELDS : string := "files(id, name, webViewLink)".

(** The element expression of the comprehension in [list_spreadsheets]. *)
Definition spreadsheet_entry (f : json) : Result json :=
  match PyOps.getitem f "name" with
  | Raise e => Raise e
  | Ok name =>
      match PyOps.getitem f "id" with
      | Raise e => Raise e
      | Ok id =>
          match PyOps.getitem f "webViewLink" with
          | Raise e => Raise e
          | Ok url => Ok (JDict [("name", name); ("id", id); ("url", url)])
          end
      end
  end.

Definition list_spreadsheets (max_results : Z) : M string :=
  service <- get_drive_service ;;
  results <- execute service (files_list SPREADSHEET_QUERY max_results FILE_FIELDS) ;;
  let files := Py.get "files" (JList []) results in
  items <- lift (PyOps.iter files) ;;
  spreadsheets <- lift (PyOps.comprehension spreadsheet_entry items) ;;
  ret (Json.dumps (JList spreadsheets)).

Definition read_sheet (spreadsheet_id range_name : string) : M string :=
  service <- get_sheets_service ;;
  result <- execute service (values_get spreadsheet_id range_name) ;;
  let values := Py.get "values" (JList []) result in
  ret (Json.dumps values).

Definition write_sheet (spreadsheet_id range_name : string) (values : json) : M string :=
  service <- get_sheets_service ;;
  let body := JDict [("values", values)] in
  result <- execute service (values_update spreadsheet_id range_name "RAW" body) ;;
  ret ("Updated " ++ Py.str (Py.get "updatedCells" JNull result) ++ " cells").

Definition append_sheet (spreadsheet_id range_name : string) (values : json) : M string :=
  service <- get_sheets_service ;;
  let body := JDict [("values", values)] in
  result <- execute service (values_append spreadsheet_id range_name "RAW" body) ;;
  cells <- lift (PyOps.get (Py.get "updates" JNull result) "updatedCells") ;;
  ret ("Appended " ++ Py.str cells ++ " cells").

Definition create_spreadsheet (title : string) : M string :=
  service <- get_sheets_service ;;
  let spreadsheet := JDict [("properties", JDict [("title", JStr title)])] in
  result <- execute service (spreadsheets_create spreadsheet) ;;
  ret (Json.dumps (JDict [("spreadsheet_id", Py.get "spreadsheetId" JNull result);
                          ("url", Py.get "spreadsheetUrl" JNull result)])).

Definition create_form (title description : string) : M string :=
  service <- get_forms_service ;;
  let form := [("info", JDict [("title", JStr title); ("documentTitle", JStr title)])] in
  form <- (if Py.truthy_str description
           then lift (PyOps.setitem2 "info" "description" (JStr description) form)
           else ret form) ;;
  result <- execute service (forms_create (JDict form)) ;;
  ret (Json.dumps (JDict [("form_id", Py.get "formId" JNull result);
                          ("url", Py.get "responderUri" JNull result)])).

(** The loop of [get_sheet_resource]: one [output.append] a row. *)
Fixpoint format_rows (rows : list json) (output : list string) : Result (list string) :=
  match rows with
  | [] => Ok output
  | row :: rest =>
      match PyOps.iter row with
      | Raise e => Raise e
      | Ok cells => format_rows rest (output ++ [String.concat " | " (map Py.str cells)])%list
      end
  end.

Definition get_sheet_resource (spreadsheet_id range_name : string) : M string :=
  service <- get_sheets_service ;;
  result <- execute service (values_get spreadsheet_id range_name) ;;
  let values := Py.get "values" (JList []) result in
  rows <- lift (PyOps.iter values) ;;
  output <- lift (format_rows rows []) ;;
  ret (String.concat Json.nl output).

(** ** The tool registry *)

(** An invocation by the host: the tool and its arguments, an argument with
    a default being optional. *)
Inductive ToolCall : Type :=
| call_list_spreadsheets (max_results : option Z)
| call_read_sheet (spreadsheet_id : string) (range_name : option string)
| call_write_sheet (spreadsheet_id range_name : string) (values : json)
| call_append_sheet (spreadsheet_id range_name : string) (values : json)
| call_create_spreadsheet (title : string)
| call_create_form (title : string) (description : option string).

Definition with_default {A} (default : A) (arg : option A) : A :=
  match arg with
  | Some a => a
  | None => default
  end.

Definition invoke (t : ToolCall) : M string :=
  match t with
  | call_list_spreadsheets max_results => list_spreadsheets (with_default 20 max_results)
  | call_read_sheet spreadsheet_id range_name =>
      read_sheet spreadsheet_id (with_default "Sheet1" range_name)
  | call_write_sheet spreadsheet_id range_name values => write_sheet spreadsheet_id range_name values
  | call_append_sheet spreadsheet_id range_name values => append_sheet spreadsheet_id range_name values
  | call_create_spreadsheet title => create_spreadsheet title
  | call_create_form title description => create_form title (with_default EmptyString description)
  end.

(** ** Reading a log *)

Definition is_refresh (ev : Event) : bool :=
  match ev with EvRefresh _ _ => true | _ => false end.

Definition is_consent (ev : Event) : bool :=
  match ev with EvClientSecrets _ _ | EvConsent _ _ => true | _ => false end.

(** The number of refresh exchanges with the identity provider. *)
Definition refresh_exchanges (l : list Event) : nat := List.length (filter is_refresh l).

(** The number of steps of the interactive consent flow. *)
Definition consent_steps (l : list Event) : nat := List.length (filter is_consent l).

(** The remote calls of a log, each with its outcome. *)
Fixpoint executed (l : list Event) : list (ApiRequest * Result dict) :=
  match l with
  | [] => []
  | EvExecute _ r outcome :: rest => (r, outcome) :: executed rest
  | _ :: rest => executed rest
  end.

(** ** Sample worlds *)

Module Sample.

Definition fresh : Credentials :=
  mkCredentials (Some "ya29.new") (Some "1//refresh") (Some 5000) SCOPES.

Definition stale : Credentials :=
  mkCredentials (Some "ya29.old") (Some "1//refresh") (Some 1000) SCOPES.

Definition no_answer : nat -> ApiRequest -> Result dict :=
  fun _ _ => Raise (External "HttpError" "503").

(** A world at time 1200 whose provider refreshes any credential to
    [fresh] and whose user grants consent. *)
Definition world (file : option FileContent)
           (service : nat -> ApiRequest -> Result dict) : World :=
  mkWorld file 1200 None (fun _ => Ok fresh) (fun _ => Ok tt) (fun _ => Ok fresh) service 0.

(** A tabular-document and form service that accepts every request. *)
Definition answers : nat -> ApiRequest -> Result dict :=
  fun _ r =>
    match r with
    | files_list _ _ _ => Raise (External "HttpError" "403")
    | values_get _ rng =>
        if String.eqb rng "Blank!A1:B2"
        then Ok [("range", JStr rng); ("majorDimension", JStr "ROWS")]
        else Ok [("range", JStr rng); ("majorDimension", JStr "ROWS");
                 ("values", JList [JList [JStr "a"; JStr "b"]; JList [JStr "c"]])]
    | values_update sid rng _ _ =>
        Ok [("spreadsheetId", JStr sid); ("updatedRange", JStr rng); ("updatedCells", JInt 4)]
    | values_append sid rng _ _ =>
        Ok [("spreadsheetId", JStr sid);
            ("updates", JDict [("updatedRange", JStr rng); ("updatedCells", JInt 2)])]
    | spreadsheets_create _ =>
        Ok [("spreadsheetId", JStr "s-1"); ("spreadsheetUrl", JStr "https://docs.google.com/spreadsheets/d/s-1")]
    | forms_create _ =>
        Ok [("formId", JStr "f-1"); ("responderUri", JStr "https://docs.google.com/forms/d/f-1")]
    end.

(** A service whose replies are empty objects. *)
Definition bare : nat -> ApiRequest -> Result dict := fun _ _ => Ok [].

(** The usual starting point: a valid credential on disk. *)
Definition ready (service : nat -> ApiRequest -> Result dict) : World :=
  world (Some (Pickled fresh)) service.

Definition grid : json := JList [JList [JStr "a"; JStr "b"]; JList [JStr "c"; JStr "d"]].

End Sample.

(** ** The rendering the specification describes *)

(** The specification's words for the resource accessor: the rows separated
    by line breaks, the cells of a row joined by [" | "], each cell in its
    string form. *)
Definition render_row (row : list json) : string :=
  String.concat " | " (map Py.str row).

Definition render_grid (grid : list (list json)) : string :=
  String.concat Json.nl (map render_row grid).

(** A reply of the fetch carries the grid [grid]. *)
Definition carries_grid (reply : dict) (grid : list (list json)) : Prop :=
  Py.get "values" (JList []) reply = JList (map JList grid).

(** ** The file-listing service *)

Module Drive.

Record File : Type := mkFile {
  id : string;
  name : string;
  mimeType : string;
  webViewLink : string
}.

Definition SPREADSHEET_MIME : string := "application/vnd.google-apps.spreadsheet".

Definition is_spreadsheet (f : File) : bool := String.eqb (mimeType f) SPREADSHEET_MIME.

Definition file_json (f : File) : json :=
  JDict [("id", JStr (id f)); ("name", JStr (name f)); ("webViewLink", JStr (webViewLink f))].

(** Modelled from the spec: the remote file-listing service, which is
    outside the repository.  Asked for the documents of the
    tabular-document kind with a page size, it answers the documents of
    that kind it stores, in store order, capped at the page size, each with
    the fields asked for. *)
Definition answer (store : list File) : nat -> ApiRequest -> Result dict :=
  fun _ r =>
    match r with
    | files_list q pageSize fields =>
        if String.eqb q ("mimeType='" ++ SPREADSHEET_MIME ++ "'")
           && String.eqb fields "files(id, name, webViewLink)"
        then Ok [("files",
                  JList (map file_json (firstn (Z.to_nat pageSize) (filter is_spreadsheet store))))]
        else Raise (External "HttpError" "400")
    | _ => Raise (External "HttpError" "404")
    end.

(** The entry [list_spreadsheets] reports for a stored file. *)
Definition entry (f : File) : json :=
  JDict [("name", JStr (name f)); ("id", JStr (id f)); ("url", JStr (webViewLink f))].

Definition sheet (n : string) : File :=
  mkFile ("id-" ++ n) n SPREADSHEET_MIME ("https://docs.google.com/spreadsheets/d/id-" ++ n).

(** Five spreadsheets and one text document. *)
Definition five_sheets : list File :=
  [ sheet "budget"; sheet "roster";
    mkFile "id-notes" "notes" "application/vnd.google-apps.document" "https://docs.google.com/document/d/id-notes";
    sheet "inventory"; sheet "leads"; sheet "plan" ].

End Drive.

(** ** Inside execute(): the authorised transport *)

(** A handle built with a credential sends its requests through
    [google_auth_httplib2.AuthorizedHttp].  This module follows one call of
    [execute()] on the wire. *)
Module Transport.

(** What the handle does on the wire. *)
Inductive Exchange : Type :=
| Sent (r : ApiRequest) (answer : Result dict)
| Refreshed (c : Credentials) (outcome : Result Credentials).

(** An answer with status 401, in the form [execute()] raises it. *)
Definition unauthorized (answer : Result dict) : bool :=
  match answer with
  | Raise (External class msg) => String.eqb class "HttpError" && String.eqb msg "401"
  | _ => false
  end.

(** [AuthorizedHttp]'s default for [max_refresh_attempts]. *)
Definition max_refresh_attempts : nat := 2.

(** [credentials.before_request]: a credential that is not valid is
    refreshed before it is used. *)
Definition before_request (idp : Credentials -> Result Credentials) (now : Z) (c : Credentials)
  : Result Credentials * list Exchange :=
  if valid_at now c then (Ok c, []) else (idp c, [Refreshed c (idp c)]).

(** [AuthorizedHttp.request] as [execute()] runs it, for a handle that holds
    [c]: the request is sent; a 401 answer, while refresh attempts are left,
    makes the handle refresh its credential and send the request again;
    every other answer, and a 401 with no attempt left, is the outcome.  A
    refresh that fails ends the call with its exception.  [wire k r] is the
    answer of the service to the [k]-th sending of [r] in this call.  The
    refreshed credential lives in the handle only: the token file is not
    written. *)
Fixpoint request (wire : nat -> ApiRequest -> Result dict)
         (idp : Credentials -> Result Credentials) (now : Z)
         (attempts_left sent : nat) (c : Credentials) (r : ApiRequest)
  : Result dict * list Exchange :=
  match before_request idp now c with
  | (Raise e, before) => (Raise e, before)
  | (Ok c1, before) =>
      match attempts_left with
      | O => (wire sent r, (before ++ [Sent r (wire sent r)])%list)
      | S k =>
          if unauthorized (wire sent r)
          then match idp c1 with
               | Raise e =>
                   (Raise e, (before ++ [Sent r (wire sent r); Refreshed c1 (Raise e)])%list)
               | Ok c2 =>
                   (fst (request wire idp now k (S sent) c2 r),
                    (before ++ Sent r (wire sent r) :: Refreshed c1 (Ok c2)
                            :: snd (request wire idp now k (S sent) c2 r))%list)
               end
          else (wire sent r, (before ++ [Sent r (wire sent r)])%list)
      end
  end.

(** The answers the service gave in a run, in order. *)
Fixpoint answers (l : list Exchange) : list (Result dict) :=
  match l with
  | [] => []
  | Sent _ answer :: rest => answer :: answers rest
  | Refreshed _ _ :: rest => answers rest
  end.

(** The world [w] with its services reached through a handle that holds
    [c]: [wire n] answers the sendings of the [n]-th call of [execute()]. *)
Definition over (wire : nat -> nat -> ApiRequest -> Result dict) (c : Credentials) (w : World)
  : World :=
  set_remote
    (fun n r => fst (request (wire n) (idp_refresh w) (utcnow w) max_refresh_attempts 0 c r)) w.

End Transport.

(** ** More ways to read a run *)

Definition is_dump (ev : Event) : bool :=
  match ev with EvDump _ => true | _ => false end.

(** The number of writes of the token file. *)
Definition token_writes (l : list Event) : nat := List.length (filter is_dump l).

(** The handles built in a log. *)
Fixpoint built (l : list Event) : list Service :=
  match l with
  | [] => []
  | EvBuild s :: rest => s :: built rest
  | _ :: rest => built rest
  end.

(** The path [get_credentials] reads the client secrets from. *)
Definition secrets_path (w : World) : string :=
  match GOOGLE_APPLICATION_CREDENTIALS w with
  | Some p => p
  | None => "credentials.json"
  end.

(** A value a [for] loop accepts. *)
Definition iterable (v : json) : bool :=
  match v with
  | JNull | JBool _ | JInt _ => false
  | JStr _ | JList _ | JDict _ => true
  end.

(** The exception of a step of [get_credentials] that failed. *)
Definition failed_step (ev : Event) : option exn :=
  match ev with
  | EvLoad Corrupt => Some UnpicklingError
  | EvRefresh _ (Raise e) => Some e
  | EvClientSecrets _ (Raise e) => Some e
  | EvConsent _ (Raise e) => Some e
  | _ => None
  end.

(** A file of a listing reply that has the three fields the tool reads. *)
Definition complete_file (f : dict) : bool :=
  match Py.lookup "name" f, Py.lookup "id" f, Py.lookup "webViewLink" f with
  | Some _, Some _, Some _ => true
  | _, _, _ => false
  end.

(** The entry reported for a file that has the three fields. *)
Definition reported (f : dict) : json :=
  JDict [("name", Py.get "name" JNull f); ("id", Py.get "id" JNull f);
         ("url", Py.get "webViewLink" JNull f)].

(** More sample worlds. *)
Module Scenario.

(** The credential is expired and holds no refresh token. *)
Definition spent : Credentials :=
  mkCredentials (Some "ya29.old") None (Some 1000) SCOPES.

(** No client secrets where the process looks for them. *)
Definition no_secrets (file : option FileContent) : World :=
  mkWorld file 1200 (Some "/etc/secrets.json") (fun _ => Ok Sample.fresh)
          (fun p => Raise (External "FileNotFoundError" p)) (fun _ => Ok Sample.fresh)
          Sample.answers 0.

(** The identity provider rejects every refresh. *)
Definition revoked (file : option FileContent) : World :=
  mkWorld file 1200 None (fun _ => Raise (External "RefreshError" "invalid_grant"))
          (fun _ => Ok tt) (fun _ => Ok Sample.fresh) Sample.answers 0.

(** A listing whose second file misses its link. *)
Definition partial_listing : nat -> ApiRequest -> Result dict :=
  fun _ _ =>
    Ok [("files",
         JList [JDict [("id", JStr "id-1"); ("name", JStr "one"); ("webViewLink", JStr "https://x/1")];
                JDict [("id", JStr "id-2"); ("name", JStr "two")]])].

(** A listing that sends two files whatever the page size. *)
Definition two_files : list dict :=
  [ [("id", JStr "i1"); ("name", JStr "n1"); ("webViewLink", JStr "u1")];
    [("id", JStr "i2"); ("name", JStr "n2"); ("webViewLink", JStr "u2")] ].

Definition long_listing : nat -> ApiRequest -> Result dict :=
  fun _ _ => Ok [("files", JList (map JDict two_files))].

(** A fetch whose second row is a number. *)
Definition odd_rows : nat -> ApiRequest -> Result dict :=
  fun _ _ => Ok [("values", JList [JList [JStr "a"]; JInt 7])].

(** An append whose [updates] field is a text. *)
Definition text_updates : nat -> ApiRequest -> Result dict :=
  fun _ _ => Ok [("updates", JStr "done")].

(** A service that answers 401 to the first sending of a call and accepts
    the next one. *)
Definition rejected_once : nat -> nat -> ApiRequest -> Result dict :=
  fun _ k r => if Nat.eqb k 0 then Raise (External "HttpError" "401") else Sample.answers k r.

(** A service that is down. *)
Definition unavailable : nat -> nat -> ApiRequest -> Result dict :=
  fun _ _ _ => Raise (External "HttpError" "503").

End Scenario.

(** * Properties *)

(** ** The Python primitives on sample values *)

Example dumps_nested :
  Json.dumps (JList [JList [JInt 1; JInt (-2)]; JList []; JDict []; JNull; JBool false])
  = "[
  [
    1,
    -2
  ],
  [],
  {},
  null,
  false
]".
Proof. reflexivity. Qed.

Example dumps_escapes :
  Json.dumps (JStr ("a" ++ Json.nl ++ String (ascii_of_N 233) "\"))
  = String Py.dquote ("a\n\u00e9\\" ++ String Py.dquote EmptyString).
Proof. reflexivity. Qed.

Example str_of_values :
  map Py.str [JStr "it's"; JInt (-7); JNull; JBool true;
              JList [JStr "a"; JInt 1; JDict [("k", JList [])]]]
  = ["it's"; "-7"; "None"; "True"; "['a', 1, {'k': []}]"].
Proof. reflexivity. Qed.

Example repr_picks_double_quotes :
  Py.repr_str "it's" = String Py.dquote ("it's" ++ String Py.dquote EmptyString).
Proof. reflexivity. Qed.

Example first_run_goes_through_consent :
  get_credentials (Sample.world None Sample.no_answer)
  = (Ok Sample.fresh,
     Sample.world (Some (Pickled Sample.fresh)) Sample.no_answer,
     [EvClientSecrets "credentials.json" (Ok tt); EvConsent SCOPES (Ok Sample.fresh);
      EvDump Sample.fresh]).
Proof. reflexivity. Qed.

(** ** Running the monad *)

Lemma bind_run {A B} (m : M A) (k : A -> M B) (w : World) :
  bind m k w =
  match m w with
  | (Ok a, w1, log1) => (result (k a w1), world_after (k a w1), (log1 ++ log (k a w1))%list)
  | (Raise e, w1, log1) => (Raise e, w1, log1)
  end.
Proof.
  unfold bind, result, world_after, log.
  destruct (m w) as [[[a | e] w1] log1]; [ | reflexivity ].
  destruct (k a w1) as [[r w2] log2]; reflexivity.
Qed.

Lemma executed_app (l1 l2 : list Event) :
  executed (l1 ++ l2) = (executed l1 ++ executed l2)%list.
Proof.
  induction l1 as [ | ev l1 IH ]; simpl; [ reflexivity | ].
  destruct ev; simpl; rewrite ?IH; reflexivity.
Qed.

(** Case analysis on everything a run of [get_credentials] consults. *)
Ltac credential_cases w :=
  unfold get_credentials, log_in, can_refresh, bind,
    os_path_exists_token, pickle_load_token, pickle_dump_token, valid, expired,
    refresh, os_getenv_credentials, from_client_secrets_file, flow_run_local_server, ret;
  repeat match goal with
         | |- context [ match token_pickle w with _ => _ end ] =>
             destruct (token_pickle w) as [ [ ? | ] | ] eqn:?; simpl
         | |- context [ valid_at ?n ?c ] => destruct (valid_at n c) eqn:?; simpl
         | |- context [ expired_at ?n ?c ] => destruct (expired_at n c) eqn:?; simpl
         | |- context [ truthy_token ?t ] => destruct (truthy_token t) eqn:?; simpl
         | |- context [ idp_refresh w ?c ] => destruct (idp_refresh w c) eqn:?; simpl
         | |- context [ client_secrets_file w ?p ] => destruct (client_secrets_file w p) eqn:?; simpl
         | |- context [ run_local_server w ?f ] => destruct (run_local_server w f) eqn:?; simpl
         end.

(** [get_credentials] touches the token file only: the remote services and
    the count of remote calls are as before, and no remote call is made. *)
Lemma get_credentials_frame (w : World) :
  remote (world_after (get_credentials w)) = remote w /\
  api_calls (world_after (get_credentials w)) = api_calls w /\
  executed (log (get_credentials w)) = [].
Proof.
  credential_cases w; auto.
Qed.

(** ** The credential routine *)

(** C1.  When the token file holds a credential that is expired and carries
    a refresh token, [get_credentials] makes exactly one refresh exchange
    and no consent step.  When the exchange succeeds the refreshed
    credential is written to the token file, after the exchange, and it is
    the value returned; when the exchange fails its exception is the
    outcome and the file is left as it was. *)
Theorem C1_expired_credential_refreshed_once (w : World) (c : Credentials) :
  token_pickle w = Some (Pickled c) ->
  expired_at (utcnow w) c = true ->
  truthy_token (refresh_token c) = true ->
  refresh_exchanges (log (get_credentials w)) = 1%nat /\
  consent_steps (log (get_credentials w)) = 0%nat /\
  match idp_refresh w c with
  | Ok c' =>
      result (get_credentials w) = Ok c' /\
      token_pickle (world_after (get_credentials w)) = Some (Pickled c') /\
      log (get_credentials w) = [EvLoad (Pickled c); EvRefresh c (Ok c'); EvDump c']
  | Raise e =>
      result (get_credentials w) = Raise e /\
      token_pickle (world_after (get_credentials w)) = Some (Pickled c) /\
      log (get_credentials w) = [EvLoad (Pickled c); EvRefresh c (Raise e)]
  end.
Proof.
  intros Hfile Hexpired Htoken.
  assert (Hvalid : valid_at (utcnow w) c = false).
  { unfold valid_at. rewrite Hexpired. destruct (token c); reflexivity. }
  unfold get_credentials, log_in, can_refresh, bind,
    os_path_exists_token, pickle_load_token, pickle_dump_token, valid, expired, refresh, ret.
  repeat (cbn -[valid_at expired_at truthy_token];
          rewrite ?Hfile, ?Hvalid, ?Hexpired, ?Htoken).
  destruct (idp_refresh w c) as [ c' | e ]; simpl; rewrite ?Hfile; auto.
Qed.

Lemma C1_witness :
  refresh_exchanges (log (get_credentials (Sample.world (Some (Pickled Sample.stale)) Sample.no_answer))) = 1%nat /\
  result (get_credentials (Sample.world (Some (Pickled Sample.stale)) Sample.no_answer)) = Ok Sample.fresh /\
  token_pickle (world_after (get_credentials (Sample.world (Some (Pickled Sample.stale)) Sample.no_answer)))
    = Some (Pickled Sample.fresh).
Proof.
  pose proof (C1_expired_credential_refreshed_once
                (Sample.world (Some (Pickled Sample.stale)) Sample.no_answer) Sample.stale
                eq_refl eq_refl eq_refl) as H.
  simpl idp_refresh in H.
  destruct H as [H1 [_ [H2 [H3 _]]]].
  exact (conj H1 (conj H2 H3)).
Defined.

(** C2.  When the token file holds a valid credential (a token is held and
    it is not expired), [get_credentials] returns that credential as it is:
    the only thing it does is read the file; there is no refresh exchange,
    no consent step, no write, and the outside is unchanged. *)
Theorem C2_valid_credential_returned_unchanged (w : World) (c : Credentials) :
  token_pickle w = Some (Pickled c) ->
  valid_at (utcnow w) c = true ->
  get_credentials w = (Ok c, w, [EvLoad (Pickled c)]) /\
  refresh_exchanges (log (get_credentials w)) = 0%nat /\
  consent_steps (log (get_credentials w)) = 0%nat.
Proof.
  intros Hfile Hvalid.
  assert (Hrun : get_credentials w = (Ok c, w, [EvLoad (Pickled c)])).
  { unfold get_credentials, bind, os_path_exists_token, pickle_load_token, valid, ret.
    repeat (cbn -[valid_at]; rewrite ?Hfile, ?Hvalid). reflexivity. }
  rewrite Hrun. auto.
Qed.

Lemma C2_witness :
  get_credentials (Sample.world (Some (Pickled Sample.fresh)) Sample.no_answer)
  = (Ok Sample.fresh, Sample.world (Some (Pickled Sample.fresh)) Sample.no_answer,
     [EvLoad (Pickled Sample.fresh)]).
Proof.
  exact (proj1 (C2_valid_credential_returned_unchanged
                  (Sample.world (Some (Pickled Sample.fresh)) Sample.no_answer) Sample.fresh
                  eq_refl eq_refl)).
Defined.

(** C3, as the code has it.  When the token file holds bytes that cannot be
    deserialized, [get_credentials] ends with the deserialization exception
    right after reading the file: no refresh exchange, no consent step, no
    write, and the file is left as it is. *)
Theorem C3_corrupt_file_raises (w : World) :
  token_pickle w = Some Corrupt ->
  get_credentials w = (Raise UnpicklingError, w, [EvLoad Corrupt]).
Proof.
  intros Hfile.
  unfold get_credentials, bind, os_path_exists_token, pickle_load_token, ret.
  repeat (cbn; rewrite ?Hfile). reflexivity.
Qed.

Lemma C3_witness :
  get_credentials (Sample.world (Some Corrupt) Sample.no_answer)
  = (Raise UnpicklingError, Sample.world (Some Corrupt) Sample.no_answer, [EvLoad Corrupt]).
Proof.
  exact (C3_corrupt_file_raises (Sample.world (Some Corrupt) Sample.no_answer) eq_refl).
Defined.

(** C3, as stated, fails: with a corrupt token file the routine raises,
    while with no token file in the same world it regenerates a credential
    through the consent flow and returns it. *)
Lemma C3_counterexample :
  token_pickle (Sample.world (Some Corrupt) Sample.no_answer) = Some Corrupt /\
  result (get_credentials (Sample.world None Sample.no_answer)) = Ok Sample.fresh /\
  result (get_credentials (Sample.world (Some Corrupt) Sample.no_answer)) = Raise UnpicklingError /\
  result (get_credentials (Sample.world (Some Corrupt) Sample.no_answer))
    <> result (get_credentials (Sample.world None Sample.no_answer)).
Proof.
  repeat split; try reflexivity.
  discriminate.
Qed.

(** ** Service handles and the shape of a tool *)

Lemma acquire_frame (name ver : string) (w : World) :
  remote (world_after (acquire name ver w)) = remote w /\
  api_calls (world_after (acquire name ver w)) = api_calls w /\
  executed (log (acquire name ver w)) = [].
Proof.
  destruct (get_credentials_frame w) as [Hr [Hc He]].
  unfold acquire. rewrite bind_run.
  revert Hr Hc He. unfold world_after, log.
  destruct (get_credentials w) as [[[c | e] w1] l1]; simpl; intros Hr Hc He.
  - rewrite executed_app, He. auto.
  - auto.
Qed.

(** A tool that acquires a handle with [acquire], executes one request and
    hands the reply to [k]: what a run is, by the outcome of the
    acquisition and of the call. *)
Lemma tool_run {A} (name ver : string) (r : ApiRequest) (k : dict -> M A) (w : World) :
  (service <- acquire name ver ;; reply <- execute service r ;; k reply) w =
  match acquire name ver w with
  | (Ok service, w1, log1) =>
      match remote w (api_calls w) r with
      | Ok reply =>
          (result (k reply (count_call w1)), world_after (k reply (count_call w1)),
           (log1 ++ EvExecute service r (Ok reply) :: log (k reply (count_call w1)))%list)
      | Raise e => (Raise e, count_call w1, (log1 ++ [EvExecute service r (Raise e)])%list)
      end
  | (Raise e, w1, log1) => (Raise e, w1, log1)
  end.
Proof.
  destruct (acquire_frame name ver w) as [Hr [Hc _]].
  rewrite bind_run.
  revert Hr Hc. unfold world_after.
  destruct (acquire name ver w) as [[[service | e] w1] log1]; simpl; [ | reflexivity ].
  intros Hr Hc.
  rewrite bind_run. unfold execute. rewrite Hr, Hc.
  destruct (remote w (api_calls w) r) as [reply | e]; reflexivity.
Qed.

(** The remote calls of such a run: none when the acquisition fails, the
    one request with its outcome otherwise, provided [k] makes none. *)
Lemma tool_executed {A} (name ver : string) (r : ApiRequest) (k : dict -> M A) (w : World) :
  (forall reply w', executed (log (k reply w')) = []) ->
  executed (log ((service <- acquire name ver ;; reply <- execute service r ;; k reply) w)) =
  match result (acquire name ver w) with
  | Ok _ => [(r, remote w (api_calls w) r)]
  | Raise _ => []
  end.
Proof.
  intros Hk.
  destruct (acquire_frame name ver w) as [_ [_ He]].
  rewrite tool_run.
  revert He. unfold result, log at 1.
  destruct (acquire name ver w) as [[[service | e] w1] log1]; simpl; intros He.
  - destruct (remote w (api_calls w) r) as [reply | e]; simpl;
      rewrite executed_app, He; simpl; rewrite ?Hk; reflexivity.
  - exact He.
Qed.

(** A failed remote call is the outcome of the run. *)
Lemma tool_failure {A} (name ver : string) (r : ApiRequest) (k : dict -> M A)
      (w : World) (service : Service) (e : exn) :
  result (acquire name ver w) = Ok service ->
  remote w (api_calls w) r = Raise e ->
  result ((service <- acquire name ver ;; reply <- execute service r ;; k reply) w) = Raise e.
Proof.
  intros Hs Hr. rewrite tool_run. revert Hs. unfold result.
  destruct (acquire name ver w) as [[[s0 | e0] w1] log1]; simpl; intros Hs; [ | discriminate ].
  rewrite Hr. reflexivity.
Qed.

(** A successful remote call hands its reply to the rest of the tool. *)
Lemma tool_success {A} (name ver : string) (r : ApiRequest) (k : dict -> M A)
      (w : World) (service : Service) (reply : dict) :
  result (acquire name ver w) = Ok service ->
  remote w (api_calls w) r = Ok reply ->
  result ((service <- acquire name ver ;; reply <- execute service r ;; k reply) w)
  = result (k reply (count_call (world_after (acquire name ver w)))).
Proof.
  intros Hs Hr. rewrite tool_run. revert Hs. unfold result, world_after.
  destruct (acquire name ver w) as [[[s0 | e0] w1] log1]; simpl; intros Hs; [ | discriminate ].
  rewrite Hr. reflexivity.
Qed.

Lemma bind_ret_run {A B} (a : A) (k : A -> M B) (w : World) :
  bind (ret a) k w = k a w.
Proof.
  unfold bind, ret. destruct (k a w) as [[r w2] log2]. reflexivity.
Qed.

Lemma bind_lift_run {A B} (x : Result A) (k : A -> M B) (w : World) :
  bind (lift x) k w =
  match x with
  | Ok a => k a w
  | Raise e => (Raise e, w, [])
  end.
Proof.
  unfold bind, lift. destruct x as [a | e]; [ | reflexivity ].
  destruct (k a w) as [[r w2] log2]. reflexivity.
Qed.

Lemma bind_ext {A B} (m : M A) (k1 k2 : A -> M B) (w : World) :
  (forall a w', k1 a w' = k2 a w') -> bind m k1 w = bind m k2 w.
Proof.
  intros H. unfold bind.
  destruct (m w) as [[[a | e] w1] log1]; [ rewrite H | ]; reflexivity.
Qed.

(** The text-building tails of the tools make no remote call. *)
Ltac quiet_tail :=
  intros; rewrite ?bind_lift_run, ?bind_ret_run;
  repeat match goal with
         | |- context [ match ?x with _ => _ end ] => destruct x
         end;
  rewrite ?bind_lift_run, ?bind_ret_run;
  repeat match goal with
         | |- context [ match ?x with _ => _ end ] => destruct x
         end;
  reflexivity.

(** ** write_sheet and append_sheet *)

(** C4.  With a handle acquired, [write_sheet] and [append_sheet] each make
    exactly one remote call; the call carries the given values unchanged
    under the key [values] and the input option [RAW].  When the call
    succeeds, the text returned reports the cell count the reply carries
    ([updatedCells], for an append inside [updates]). *)
Theorem C4_write_and_append_send_raw_once
        (w : World) (spreadsheet_id range_name : string) (values : json) (service : Service) :
  result (get_sheets_service w) = Ok service ->
  let update := values_update spreadsheet_id range_name "RAW" (JDict [("values", values)]) in
  let append := values_append spreadsheet_id range_name "RAW" (JDict [("values", values)]) in
  executed (log (write_sheet spreadsheet_id range_name values w))
    = [(update, remote w (api_calls w) update)] /\
  executed (log (append_sheet spreadsheet_id range_name values w))
    = [(append, remote w (api_calls w) append)] /\
  (forall reply cells,
      remote w (api_calls w) update = Ok reply ->
      Py.lookup "updatedCells" reply = Some cells ->
      result (write_sheet spreadsheet_id range_name values w)
      = Ok ("Updated " ++ Py.str cells ++ " cells")) /\
  (forall reply updates cells,
      remote w (api_calls w) append = Ok reply ->
      Py.lookup "updates" reply = Some (JDict updates) ->
      Py.lookup "updatedCells" updates = Some cells ->
      result (append_sheet spreadsheet_id range_name values w)
      = Ok ("Appended " ++ Py.str cells ++ " cells")).
Proof.
  intros Hs update append.
  change (result (acquire "sheets" "v4" w) = Ok service) in Hs.
  repeat split.
  - unfold write_sheet.
    etransitivity; [ apply (tool_executed "sheets" "v4" update); quiet_tail | ].
    rewrite Hs. reflexivity.
  - unfold append_sheet.
    etransitivity; [ apply (tool_executed "sheets" "v4" append); quiet_tail | ].
    rewrite Hs. reflexivity.
  - intros reply cells Hr Hcells. unfold write_sheet.
    etransitivity; [ apply (tool_success "sheets" "v4" update _ w service reply Hs Hr) | ].
    cbv beta. unfold Py.get. rewrite Hcells. reflexivity.
  - intros reply updates cells Hr Hupdates Hcells. unfold append_sheet.
    etransitivity; [ apply (tool_success "sheets" "v4" append _ w service reply Hs Hr) | ].
    cbv beta. rewrite bind_lift_run. unfold Py.get. rewrite Hupdates. simpl. unfold Py.get.
    rewrite Hcells. reflexivity.
Qed.

Lemma C4_witness :
  executed (log (write_sheet "abc123" "Sheet1!A1:B2" Sample.grid (Sample.ready Sample.answers)))
    = [(values_update "abc123" "Sheet1!A1:B2" "RAW" (JDict [("values", Sample.grid)]),
        Ok [("spreadsheetId", JStr "abc123"); ("updatedRange", JStr "Sheet1!A1:B2");
            ("updatedCells", JInt 4)])] /\
  result (write_sheet "abc123" "Sheet1!A1:B2" Sample.grid (Sample.ready Sample.answers))
    = Ok "Updated 4 cells" /\
  result (append_sheet "abc123" "Sheet1!A1:B2" Sample.grid (Sample.ready Sample.answers))
    = Ok "Appended 2 cells".
Proof.
  pose proof (C4_write_and_append_send_raw_once
                (Sample.ready Sample.answers) "abc123" "Sheet1!A1:B2" Sample.grid
                (mkService "sheets" "v4" Sample.fresh) eq_refl) as H.
  destruct H as [H1 [_ [H3 H4]]].
  split; [ exact H1 | split ].
  - exact (H3 _ (JInt 4) eq_refl eq_refl).
  - exact (H4 _ _ (JInt 2) eq_refl eq_refl eq_refl).
Defined.

(** ** read_sheet and get_sheet_resource *)

(** The loop over a grid appends the rendering of each row, in order. *)
Lemma format_rows_grid (grid : list (list json)) (output : list string) :
  format_rows (map JList grid) output = Ok (output ++ map render_row grid)%list.
Proof.
  revert output.
  induction grid as [ | row grid IH ]; intros output; simpl.
  - rewrite app_nil_r. reflexivity.
  - rewrite IH, <- app_assoc. reflexivity.
Qed.

(** What follows the fetch in the two readers touches nothing outside. *)
Lemma read_tail_run (values : json) (w : World) :
  exists r, (rows <- lift (PyOps.iter values) ;;
             output <- lift (format_rows rows []) ;;
             ret (String.concat Json.nl output)) w = (r, w, []).
Proof.
  rewrite bind_lift_run.
  destruct (PyOps.iter values) as [rows | e]; [ | eexists; reflexivity ].
  rewrite bind_lift_run.
  destruct (format_rows rows []) as [output | e]; eexists; reflexivity.
Qed.

(** C5.  [get_sheet_resource] and [read_sheet], run on the same arguments in
    the same world, leave the same log and the same world behind: the same
    single fetch.  When the fetch answers with a grid, the resource
    accessor returns the rows separated by line breaks with the cells of a
    row joined by [" | "], each cell in its string form, and [read_sheet]
    returns the JSON text of the grid. *)
Theorem C5_resource_renders_the_fetch_of_read_sheet
        (w : World) (spreadsheet_id range_name : string) :
  log (get_sheet_resource spreadsheet_id range_name w)
    = log (read_sheet spreadsheet_id range_name w) /\
  world_after (get_sheet_resource spreadsheet_id range_name w)
    = world_after (read_sheet spreadsheet_id range_name w) /\
  forall (service : Service) (reply : dict) (grid : list (list json)),
    result (get_sheets_service w) = Ok service ->
    remote w (api_calls w) (values_get spreadsheet_id range_name) = Ok reply ->
    carries_grid reply grid ->
    executed (log (get_sheet_resource spreadsheet_id range_name w))
      = [(values_get spreadsheet_id range_name, Ok reply)] /\
    result (get_sheet_resource spreadsheet_id range_name w) = Ok (render_grid grid) /\
    result (read_sheet spreadsheet_id range_name w) = Ok (Json.dumps (JList (map JList grid))).
Proof.
  assert (Hsame : log (get_sheet_resource spreadsheet_id range_name w)
                    = log (read_sheet spreadsheet_id range_name w) /\
                  world_after (get_sheet_resource spreadsheet_id range_name w)
                    = world_after (read_sheet spreadsheet_id range_name w)).
  { unfold get_sheet_resource, read_sheet.
    split.
    - etransitivity; [ apply f_equal; apply (tool_run "sheets" "v4") | ].
      etransitivity; [ | symmetry; apply f_equal; apply (tool_run "sheets" "v4") ].
      destruct (acquire "sheets" "v4" w) as [[[s0 | e0] w1] log1]; [ | reflexivity ].
      destruct (remote w (api_calls w) (values_get spreadsheet_id range_name)) as [reply | e];
        [ | reflexivity ].
      destruct (read_tail_run (Py.get "values" (JList []) reply) (count_call w1)) as [r Hr].
      rewrite Hr. reflexivity.
    - etransitivity; [ apply f_equal; apply (tool_run "sheets" "v4") | ].
      etransitivity; [ | symmetry; apply f_equal; apply (tool_run "sheets" "v4") ].
      destruct (acquire "sheets" "v4" w) as [[[s0 | e0] w1] log1]; [ | reflexivity ].
      destruct (remote w (api_calls w) (values_get spreadsheet_id range_name)) as [reply | e];
        [ | reflexivity ].
      destruct (read_tail_run (Py.get "values" (JList []) reply) (count_call w1)) as [r Hr].
      rewrite Hr. reflexivity. }
  destruct Hsame as [Hlog Hworld].
  split; [ exact Hlog | split; [ exact Hworld | ] ].
  intros service reply grid Hs Hr Hgrid.
  change (result (acquire "sheets" "v4" w) = Ok service) in Hs.
  unfold carries_grid in Hgrid.
  repeat split.
  - rewrite Hlog. unfold read_sheet.
    etransitivity; [ apply (tool_executed "sheets" "v4" (values_get spreadsheet_id range_name));
                     quiet_tail | ].
    rewrite Hs, Hr. reflexivity.
  - unfold get_sheet_resource.
    etransitivity; [ apply (tool_success "sheets" "v4" _ _ w service reply Hs Hr) | ].
    cbv beta. rewrite Hgrid, bind_lift_run. simpl PyOps.iter. cbv iota.
    rewrite bind_lift_run, format_rows_grid. reflexivity.
  - unfold read_sheet.
    etransitivity; [ apply (tool_success "sheets" "v4" _ _ w service reply Hs Hr) | ].
    cbv beta. rewrite Hgrid. reflexivity.
Qed.

Lemma C5_witness :
  log (get_sheet_resource "abc123" "Sheet1" (Sample.ready Sample.answers))
    = log (read_sheet "abc123" "Sheet1" (Sample.ready Sample.answers)) /\
  result (get_sheet_resource "abc123" "Sheet1" (Sample.ready Sample.answers))
    = Ok ("a | b" ++ Json.nl ++ "c") /\
  result (read_sheet "abc123" "Sheet1" (Sample.ready Sample.answers))
    = Ok (Json.dumps (JList [JList [JStr "a"; JStr "b"]; JList [JStr "c"]])) /\
  result (get_sheet_resource "abc123" "Sheet1" (Sample.ready Sample.answers))
    <> result (read_sheet "abc123" "Sheet1" (Sample.ready Sample.answers)).
Proof.
  destruct (C5_resource_renders_the_fetch_of_read_sheet
              (Sample.ready Sample.answers) "abc123" "Sheet1") as [H1 [_ H]].
  destruct (H (mkService "sheets" "v4" Sample.fresh) _
              [[JStr "a"; JStr "b"]; [JStr "c"]] eq_refl eq_refl eq_refl) as [_ [H4 H5]].
  split; [ exact H1 | split; [ exact H4 | split; [ exact H5 | ] ] ].
  rewrite H4, H5. intros E. vm_compute in E. discriminate E.
Defined.

(** C9.  When the reply of the fetch has no [values] field, [read_sheet]
    returns the JSON text of the empty list and [get_sheet_resource]
    returns the empty string. *)
Theorem C9_reply_without_values
        (w : World) (spreadsheet_id range_name : string) (service : Service) (reply : dict) :
  result (get_sheets_service w) = Ok service ->
  remote w (api_calls w) (values_get spreadsheet_id range_name) = Ok reply ->
  Py.lookup "values" reply = None ->
  result (read_sheet spreadsheet_id range_name w) = Ok "[]" /\
  result (get_sheet_resource spreadsheet_id range_name w) = Ok EmptyString.
Proof.
  intros Hs Hr Hvalues.
  change (result (acquire "sheets" "v4" w) = Ok service) in Hs.
  split.
  - unfold read_sheet.
    etransitivity; [ apply (tool_success "sheets" "v4" _ _ w service reply Hs Hr) | ].
    cbv beta. unfold Py.get. rewrite Hvalues. reflexivity.
  - unfold get_sheet_resource.
    etransitivity; [ apply (tool_success "sheets" "v4" _ _ w service reply Hs Hr) | ].
    cbv beta. unfold Py.get. rewrite Hvalues. reflexivity.
Qed.

Lemma C9_witness :
  result (read_sheet "abc123" "Blank!A1:B2" (Sample.ready Sample.answers)) = Ok "[]" /\
  result (get_sheet_resource "abc123" "Blank!A1:B2" (Sample.ready Sample.answers)) = Ok EmptyString.
Proof.
  exact (C9_reply_without_values (Sample.ready Sample.answers) "abc123" "Blank!A1:B2"
           (mkService "sheets" "v4" Sample.fresh) _ eq_refl eq_refl eq_refl).
Defined.

(** C10.  When the reply of the append has no [updates] field,
    [append_sheet] ends with an [AttributeError]: the second [get] is
    called on [None].  [write_sheet] returns a text for every reply, and
    reports a missing [updatedCells] as [None]. *)
Theorem C10_append_unguarded_write_guarded
        (w : World) (spreadsheet_id range_name : string) (values : json) (service : Service) :
  result (get_sheets_service w) = Ok service ->
  (forall reply,
      remote w (api_calls w)
             (values_append spreadsheet_id range_name "RAW" (JDict [("values", values)])) = Ok reply ->
      Py.lookup "updates" reply = None ->
      result (append_sheet spreadsheet_id range_name values w)
      = Raise (AttributeError "'NoneType' object has no attribute 'get'")) /\
  (forall reply,
      remote w (api_calls w)
             (values_update spreadsheet_id range_name "RAW" (JDict [("values", values)])) = Ok reply ->
      (exists text, result (write_sheet spreadsheet_id range_name values w) = Ok text) /\
      (Py.lookup "updatedCells" reply = None ->
       result (write_sheet spreadsheet_id range_name values w) = Ok "Updated None cells")).
Proof.
  intros Hs.
  change (result (acquire "sheets" "v4" w) = Ok service) in Hs.
  split.
  - intros reply Hr Hupdates. unfold append_sheet.
    etransitivity; [ apply (tool_success "sheets" "v4" _ _ w service reply Hs Hr) | ].
    cbv beta. rewrite bind_lift_run. unfold Py.get. rewrite Hupdates. reflexivity.
  - intros reply Hr.
    assert (Hw : result (write_sheet spreadsheet_id range_name values w)
                 = Ok ("Updated " ++ Py.str (Py.get "updatedCells" JNull reply) ++ " cells")).
    { unfold write_sheet.
      etransitivity; [ apply (tool_success "sheets" "v4" _ _ w service reply Hs Hr) | ].
      reflexivity. }
    split.
    + eexists. exact Hw.
    + intros Hcells. rewrite Hw. unfold Py.get. rewrite Hcells. reflexivity.
Qed.

Lemma C10_witness :
  result (append_sheet "abc123" "Sheet1" Sample.grid (Sample.ready Sample.bare))
    = Raise (AttributeError "'NoneType' object has no attribute 'get'") /\
  result (write_sheet "abc123" "Sheet1" Sample.grid (Sample.ready Sample.bare))
    = Ok "Updated None cells".
Proof.
  pose proof (C10_append_unguarded_write_guarded
                (Sample.ready Sample.bare) "abc123" "Sheet1" Sample.grid
                (mkService "sheets" "v4" Sample.fresh) eq_refl) as H.
  destruct H as [H1 H2].
  split.
  - exact (H1 [] eq_refl eq_refl).
  - exact (proj2 (H2 [] eq_refl) eq_refl).
Defined.

(** ** create_form *)

(** [create_form] in the shape of the other tools: the request body is
    settled before the call. *)
Lemma create_form_run (title description : string) (w : World) :
  create_form title description w =
  (service <- acquire "forms" "v1" ;;
   reply <- execute service
              (forms_create
                 (JDict [("info",
                          JDict (if Py.truthy_str description
                                 then [("title", JStr title); ("documentTitle", JStr title);
                                       ("description", JStr description)]
                                 else [("title", JStr title); ("documentTitle", JStr title)]))])) ;;
   ret (Json.dumps (JDict [("form_id", Py.get "formId" JNull reply);
                           ("url", Py.get "responderUri" JNull reply)]))) w.
Proof.
  unfold create_form.
  apply bind_ext. intros service w'.
  destruct description as [ | a rest ]; simpl Py.truthy_str; cbv iota.
  - rewrite bind_ret_run. reflexivity.
  - rewrite bind_lift_run. reflexivity.
Qed.

(** C8.  With a handle acquired, [create_form] makes one creation request
    whose body is an [info] object holding the title twice ([title],
    [documentTitle]); the object holds a [description] exactly when the
    description given is not empty, and then it is that description.  With
    an empty description, which is also the default, the object holds the
    two title fields only; otherwise the description follows them. *)
Theorem C8_description_only_when_non_empty
        (w : World) (title description : string) (service : Service) :
  result (get_forms_service w) = Ok service ->
  exists info : dict,
    executed (log (create_form title description w))
      = [(forms_create (JDict [("info", JDict info)]),
          remote w (api_calls w) (forms_create (JDict [("info", JDict info)])))] /\
    Py.lookup "title" info = Some (JStr title) /\
    Py.lookup "documentTitle" info = Some (JStr title) /\
    (Py.lookup "description" info <> None <-> description <> EmptyString) /\
    (description <> EmptyString ->
     info = [("title", JStr title); ("documentTitle", JStr title);
             ("description", JStr description)]) /\
    (description = EmptyString ->
     info = [("title", JStr title); ("documentTitle", JStr title)]) /\
    invoke (call_create_form title None) = create_form title EmptyString.
Proof.
  intros Hs.
  change (result (acquire "forms" "v1" w) = Ok service) in Hs.
  eexists. split.
  - rewrite create_form_run.
    etransitivity; [ apply (tool_executed "forms" "v1"); quiet_tail | ].
    rewrite Hs. reflexivity.
  - destruct description as [ | a rest ]; simpl.
    + repeat split; try reflexivity; try congruence.
    + repeat split; try reflexivity; try congruence; intros; discriminate.
Qed.

Lemma C8_witness :
  executed (log (create_form "Survey" EmptyString (Sample.ready Sample.answers)))
    = [(forms_create (JDict [("info", JDict [("title", JStr "Survey");
                                              ("documentTitle", JStr "Survey")])]),
        Ok [("formId", JStr "f-1"); ("responderUri", JStr "https://docs.google.com/forms/d/f-1")])] /\
  executed (log (create_form "Survey" "About lunch" (Sample.ready Sample.answers)))
    = [(forms_create (JDict [("info", JDict [("title", JStr "Survey");
                                              ("documentTitle", JStr "Survey");
                                              ("description", JStr "About lunch")])]),
        Ok [("formId", JStr "f-1"); ("responderUri", JStr "https://docs.google.com/forms/d/f-1")])].
Proof.
  destruct (C8_description_only_when_non_empty
              (Sample.ready Sample.answers) "Survey" EmptyString
              (mkService "forms" "v1" Sample.fresh) eq_refl) as [info1 [H1 [_ [_ [_ [_ [E1 _]]]]]]].
  destruct (C8_description_only_when_non_empty
              (Sample.ready Sample.answers) "Survey" "About lunch"
              (mkService "forms" "v1" Sample.fresh) eq_refl) as [info2 [H2 [_ [_ [_ [E2 _]]]]]].
  split.
  - rewrite H1, (E1 eq_refl). reflexivity.
  - rewrite H2, E2; [ reflexivity | discriminate ].
Defined.

(** ** One call of execute() per invocation *)

(** A tool of the common shape calls [execute()] at most once, and a
    failure of that call is its outcome. *)
Lemma tool_executes_once {A} (name ver : string) (r : ApiRequest) (k : dict -> M A) (w : World) :
  (forall reply w', executed (log (k reply w')) = []) ->
  (List.length
     (executed (log ((service <- acquire name ver ;; reply <- execute service r ;; k reply) w)))
   <= 1)%nat /\
  forall r' e,
    In (r', Raise e)
       (executed (log ((service <- acquire name ver ;; reply <- execute service r ;; k reply) w))) ->
    result ((service <- acquire name ver ;; reply <- execute service r ;; k reply) w) = Raise e.
Proof.
  intros Hk. rewrite (tool_executed name ver r k w Hk).
  destruct (result (acquire name ver w)) as [service | e0] eqn:Hs; simpl.
  - split; [ lia | ].
    intros r' e [Hin | []].
    apply (tool_failure name ver r k w service e Hs).
    congruence.
  - split; [ lia | intros r' e [] ].
Qed.

(** The resource accessor is of the same kind. *)
Lemma get_sheet_resource_executes_once (spreadsheet_id range_name : string) (w : World) :
  (List.length (executed (log (get_sheet_resource spreadsheet_id range_name w))) <= 1)%nat /\
  forall r e,
    In (r, Raise e) (executed (log (get_sheet_resource spreadsheet_id range_name w))) ->
    result (get_sheet_resource spreadsheet_id range_name w) = Raise e.
Proof.
  apply (tool_executes_once "sheets" "v4"). quiet_tail.
Qed.

(** ** list_spreadsheets *)

Lemma comprehension_entries (fs : list Drive.File) :
  PyOps.comprehension spreadsheet_entry (map Drive.file_json fs) = Ok (map Drive.entry fs).
Proof.
  induction fs as [ | f fs IH ]; simpl; [ reflexivity | ].
  rewrite IH. reflexivity.
Qed.

Lemma filter_all {A} (p : A -> bool) (l : list A) :
  Forall (fun x => p x = true) (filter p l).
Proof.
  induction l as [ | x l IH ]; simpl; [ constructor | ].
  destruct (p x) eqn:Hp; [ constructor; assumption | assumption ].
Qed.

Lemma Forall_firstn {A} (P : A -> Prop) (n : nat) (l : list A) :
  Forall P l -> Forall P (firstn n l).
Proof.
  revert l. induction n as [ | n IH ]; intros l H; simpl; [ constructor | ].
  destruct H as [ | x l Hx Hl ]; constructor; auto.
Qed.

(** Whatever the service is, [list_spreadsheets] asks for the spreadsheet
    kind with page size [max_results] and reports one entry for each file
    of the reply, in the order of the reply; it drops none itself. *)
Lemma list_spreadsheets_maps_reply
      (w : World) (max_results : Z) (service : Service) (reply : dict) (fs : list Drive.File) :
  result (get_drive_service w) = Ok service ->
  remote w (api_calls w) (files_list SPREADSHEET_QUERY max_results FILE_FIELDS) = Ok reply ->
  Py.get "files" (JList []) reply = JList (map Drive.file_json fs) ->
  executed (log (list_spreadsheets max_results w))
    = [(files_list SPREADSHEET_QUERY max_results FILE_FIELDS, Ok reply)] /\
  result (list_spreadsheets max_results w) = Ok (Json.dumps (JList (map Drive.entry fs))).
Proof.
  intros Hs Hr Hfiles.
  change (result (acquire "drive" "v3" w) = Ok service) in Hs.
  split.
  - unfold list_spreadsheets.
    etransitivity; [ apply (tool_executed "drive" "v3"); quiet_tail | ].
    rewrite Hs, Hr. reflexivity.
  - unfold list_spreadsheets.
    etransitivity; [ apply (tool_success "drive" "v3" _ _ w service _ Hs Hr) | ].
    cbv beta. rewrite Hfiles, bind_lift_run. simpl PyOps.iter. cbv iota.
    rewrite bind_lift_run, comprehension_entries. reflexivity.
Qed.

(** C7.  Against a file-listing service that answers as the specification
    says, with a handle acquired and a positive [max_results],
    [list_spreadsheets] sends one listing request for the spreadsheet kind
    with page size [max_results], and returns the JSON text of the entries
    (name, id, url) of the first [max_results] spreadsheets of the store:
    at most [max_results] entries, all of them spreadsheets, and as many as
    the smaller of [max_results] and the number of spreadsheets stored.
    Called without an argument it uses 20. *)
Theorem C7_list_spreadsheets_capped
        (w : World) (store : list Drive.File) (max_results : Z) (service : Service) :
  remote w = Drive.answer store ->
  result (get_drive_service w) = Ok service ->
  0 < max_results ->
  let shown := firstn (Z.to_nat max_results) (filter Drive.is_spreadsheet store) in
  executed (log (list_spreadsheets max_results w))
    = [(files_list "mimeType='application/vnd.google-apps.spreadsheet'" max_results
                   "files(id, name, webViewLink)",
        Ok [("files", JList (map Drive.file_json shown))])] /\
  result (list_spreadsheets max_results w) = Ok (Json.dumps (JList (map Drive.entry shown))) /\
  Z.of_nat (List.length (map Drive.entry shown)) <= max_results /\
  List.length (map Drive.entry shown)
    = Nat.min (Z.to_nat max_results) (List.length (filter Drive.is_spreadsheet store)) /\
  Forall (fun f => Drive.mimeType f = Drive.SPREADSHEET_MIME) shown /\
  invoke (call_list_spreadsheets None) = list_spreadsheets 20.
Proof.
  intros Hremote Hs Hpos shown.
  assert (Hr : remote w (api_calls w) (files_list SPREADSHEET_QUERY max_results FILE_FIELDS)
               = Ok [("files", JList (map Drive.file_json shown))]).
  { rewrite Hremote. reflexivity. }
  assert (Hlen : List.length (map Drive.entry shown)
                 = Nat.min (Z.to_nat max_results) (List.length (filter Drive.is_spreadsheet store))).
  { unfold shown. rewrite length_map, length_firstn. reflexivity. }
  destruct (list_spreadsheets_maps_reply w max_results service _ shown Hs Hr eq_refl)
    as [Hexe Hres].
  repeat split.
  - exact Hexe.
  - exact Hres.
  - rewrite Hlen. lia.
  - exact Hlen.
  - unfold shown. apply Forall_firstn.
    eapply Forall_impl; [ | apply filter_all ].
    intros f Hf. apply String.eqb_eq. exact Hf.
Qed.

Lemma C7_witness :
  result (list_spreadsheets 2 (Sample.ready (Drive.answer Drive.five_sheets)))
    = Ok (Json.dumps
            (JList [JDict [("name", JStr "budget"); ("id", JStr "id-budget");
                           ("url", JStr "https://docs.google.com/spreadsheets/d/id-budget")];
                    JDict [("name", JStr "roster"); ("id", JStr "id-roster");
                           ("url", JStr "https://docs.google.com/spreadsheets/d/id-roster")]])) /\
  List.length (filter Drive.is_spreadsheet Drive.five_sheets) = 5%nat /\
  List.length (map Drive.entry (firstn 2 (filter Drive.is_spreadsheet Drive.five_sheets))) = 2%nat.
Proof.
  pose proof (C7_list_spreadsheets_capped
                (Sample.ready (Drive.answer Drive.five_sheets)) Drive.five_sheets 2
                (mkService "drive" "v3" Sample.fresh) eq_refl eq_refl eq_refl) as H.
  destruct H as [_ [H2 [_ [H4 _]]]].
  split; [ exact H2 | split; [ reflexivity | exact H4 ] ].
Defined.

(** ** More on the credential routine *)

Ltac settle_run :=
  unfold result, world_after, log, refresh_exchanges, consent_steps, token_writes;
  simpl; intros;
  repeat match goal with
         | H : Ok _ = Ok _ |- _ => injection H as H; subst
         | H : Raise _ = Raise _ |- _ => injection H as H; subst
         | H : Some (Pickled _) = Some (Pickled _) |- _ => injection H as H; subst
         | H : Some _ = None |- _ => discriminate H
         | H : None = Some _ |- _ => discriminate H
         | H : Some Corrupt = Some (Pickled _) |- _ => discriminate H
         | H : Some (Pickled _) = Some Corrupt |- _ => discriminate H
         | H : Ok _ = Raise _ |- _ => discriminate H
         | H : Raise _ = Ok _ |- _ => discriminate H
         | H : _ \/ _ |- _ => destruct H
         | H : False |- _ => destruct H
         | H : EvRefresh _ _ = EvRefresh _ _ |- _ => injection H as ? ?; subst
         | H : EvConsent _ _ = EvConsent _ _ |- _ => injection H as ? ?; subst
         | H : EvClientSecrets _ _ = EvClientSecrets _ _ |- _ => injection H as ? ?; subst
         | H : _ = _ :> Event |- _ => discriminate H
         end.

(** X1.  Whenever [get_credentials] returns a credential, the token file
    holds that credential afterwards, whichever way it was obtained. *)
Theorem get_credentials_persists_what_it_returns (w : World) (c : Credentials) :
  result (get_credentials w) = Ok c ->
  token_pickle (world_after (get_credentials w)) = Some (Pickled c).
Proof.
  revert c. credential_cases w; settle_run; auto.
Qed.

Lemma get_credentials_persists_witness :
  token_pickle (world_after (get_credentials (Sample.world None Sample.no_answer)))
  = Some (Pickled Sample.fresh).
Proof.
  exact (get_credentials_persists_what_it_returns
           (Sample.world None Sample.no_answer) Sample.fresh eq_refl).
Defined.

(** X2.  When a step before the write fails (reading the token file, the
    refresh exchange, reading the client secrets, the consent flow),
    [get_credentials] ends with the exception of that step and has not
    touched the token file: no write is made and the outside is as it was
    before the call. *)
Theorem get_credentials_failed_step_writes_nothing (w : World) (ev : Event) (e : exn) :
  In ev (log (get_credentials w)) ->
  failed_step ev = Some e ->
  result (get_credentials w) = Raise e /\
  world_after (get_credentials w) = w /\
  token_writes (log (get_credentials w)) = 0%nat.
Proof.
  revert ev e. credential_cases w; settle_run; subst; simpl in *;
    try discriminate;
    repeat match goal with
           | H : Some _ = Some _ |- _ => injection H as H; subst
           end;
    auto.
Qed.

Lemma get_credentials_failed_step_witness :
  result (get_credentials (Scenario.revoked (Some (Pickled Sample.stale))))
    = Raise (External "RefreshError" "invalid_grant") /\
  world_after (get_credentials (Scenario.revoked (Some (Pickled Sample.stale))))
    = Scenario.revoked (Some (Pickled Sample.stale)).
Proof.
  destruct (get_credentials_failed_step_writes_nothing
              (Scenario.revoked (Some (Pickled Sample.stale)))
              (EvRefresh Sample.stale (Raise (External "RefreshError" "invalid_grant")))
              (External "RefreshError" "invalid_grant")) as [H1 [H2 _]].
  - right. left. reflexivity.
  - reflexivity.
  - exact (conj H1 H2).
Defined.

(** X3.  In one run [get_credentials] makes at most one refresh exchange
    and writes the token file at most once, and it never does both a
    refresh exchange and a consent step: a failed refresh is not followed
    by the consent flow. *)
Theorem get_credentials_refresh_or_consent (w : World) :
  (refresh_exchanges (log (get_credentials w)) <= 1)%nat /\
  (token_writes (log (get_credentials w)) <= 1)%nat /\
  (refresh_exchanges (log (get_credentials w)) = 0%nat \/
   consent_steps (log (get_credentials w)) = 0%nat).
Proof.
  credential_cases w; settle_run; auto.
Qed.

(** X4.  A refresh exchange happens only for the credential read from the
    token file, and only when that credential is expired and holds a
    non-empty refresh token. *)
Theorem refresh_only_when_expired_with_refresh_token
        (w : World) (c : Credentials) (outcome : Result Credentials) :
  In (EvRefresh c outcome) (log (get_credentials w)) ->
  token_pickle w = Some (Pickled c) /\
  expired_at (utcnow w) c = true /\
  truthy_token (refresh_token c) = true /\
  outcome = idp_refresh w c.
Proof.
  revert c outcome. credential_cases w; settle_run; auto.
Qed.

Lemma refresh_only_when_witness :
  token_pickle (Sample.world (Some (Pickled Sample.stale)) Sample.no_answer)
    = Some (Pickled Sample.stale) /\
  expired_at 1200 Sample.stale = true.
Proof.
  destruct (refresh_only_when_expired_with_refresh_token
              (Sample.world (Some (Pickled Sample.stale)) Sample.no_answer)
              Sample.stale (Ok Sample.fresh)) as [H1 [H2 _]].
  - right. left. reflexivity.
  - exact (conj H1 H2).
Defined.

(** X5.  The consent flow is run only when there is no token file, or when
    the credential read from it is not valid and cannot be refreshed (not
    expired, or without a refresh token).  It always asks for the three
    scopes of [SCOPES], and the client secrets are read from the path in
    [GOOGLE_APPLICATION_CREDENTIALS], or [credentials.json] without it. *)
Theorem consent_only_without_usable_credential (w : World) (ev : Event) :
  In ev (log (get_credentials w)) ->
  is_consent ev = true ->
  (token_pickle w = None \/
   exists c, token_pickle w = Some (Pickled c) /\
             valid_at (utcnow w) c = false /\
             expired_at (utcnow w) c && truthy_token (refresh_token c) = false) /\
  match ev with
  | EvClientSecrets path _ => path = secrets_path w
  | EvConsent requested _ => requested = SCOPES
  | _ => True
  end.
Proof.
  revert ev. unfold secrets_path.
  credential_cases w; settle_run; subst; simpl in *; try discriminate;
    (split; [ | reflexivity ]);
    first [ left; reflexivity
          | right; eexists; split; [ reflexivity | split; [ eassumption | ] ];
            repeat match goal with
                   | H : expired_at _ _ = _ |- _ => rewrite H; clear H
                   | H : truthy_token _ = _ |- _ => rewrite H; clear H
                   end;
            reflexivity ].
Qed.

Lemma consent_only_witness :
  token_pickle (Sample.world None Sample.no_answer) = None \/
  exists c, token_pickle (Sample.world None Sample.no_answer) = Some (Pickled c) /\
            valid_at 1200 c = false /\
            expired_at 1200 c && truthy_token (refresh_token c) = false.
Proof.
  refine (proj1 (consent_only_without_usable_credential
                   (Sample.world None Sample.no_answer) (EvConsent SCOPES (Ok Sample.fresh)) _ eq_refl)).
  right. left. reflexivity.
Defined.

(** X6.  Without a token file, [get_credentials] goes straight to the
    consent flow: it reads the client secrets, asks for the three scopes,
    and writes the credential granted to the token file before returning
    it.  When the secrets cannot be read the flow is not started, and when
    it fails nothing is written: there is still no token file. *)
Theorem first_run_consent (w : World) :
  token_pickle w = None ->
  (forall e,
      client_secrets_file w (secrets_path w) = Raise e ->
      get_credentials w = (Raise e, w, [EvClientSecrets (secrets_path w) (Raise e)])) /\
  (forall e,
      client_secrets_file w (secrets_path w) = Ok tt ->
      run_local_server w SCOPES = Raise e ->
      get_credentials w
      = (Raise e, w, [EvClientSecrets (secrets_path w) (Ok tt); EvConsent SCOPES (Raise e)])) /\
  (forall c,
      client_secrets_file w (secrets_path w) = Ok tt ->
      run_local_server w SCOPES = Ok c ->
      get_credentials w
      = (Ok c, set_token_pickle (Some (Pickled c)) w,
         [EvClientSecrets (secrets_path w) (Ok tt); EvConsent SCOPES (Ok c); EvDump c])).
Proof.
  intros Hfile.
  unfold secrets_path, get_credentials, log_in, can_refresh, bind, os_path_exists_token,
    pickle_dump_token, os_getenv_credentials, from_client_secrets_file,
    flow_run_local_server, ret.
  repeat split; intros;
    repeat (cbn; repeat match goal with H : _ = _ |- _ => rewrite H end);
    reflexivity.
Qed.

Lemma first_run_consent_witness :
  get_credentials (Scenario.no_secrets None)
  = (Raise (External "FileNotFoundError" "/etc/secrets.json"), Scenario.no_secrets None,
     [EvClientSecrets "/etc/secrets.json" (Raise (External "FileNotFoundError" "/etc/secrets.json"))]).
Proof.
  exact (proj1 (first_run_consent (Scenario.no_secrets None) eq_refl) _ eq_refl).
Defined.

(** X7.  A credential on disk that is not valid and cannot be refreshed
    (it is not expired, or it holds no refresh token) is not sent to the
    identity provider: the consent flow is run instead, and the credential
    it grants replaces the old one in the token file. *)
Theorem unusable_credential_is_replaced_by_consent (w : World) (c c' : Credentials) :
  token_pickle w = Some (Pickled c) ->
  valid_at (utcnow w) c = false ->
  expired_at (utcnow w) c && truthy_token (refresh_token c) = false ->
  client_secrets_file w (secrets_path w) = Ok tt ->
  run_local_server w SCOPES = Ok c' ->
  get_credentials w
  = (Ok c', set_token_pickle (Some (Pickled c')) w,
     [EvLoad (Pickled c); EvClientSecrets (secrets_path w) (Ok tt);
      EvConsent SCOPES (Ok c'); EvDump c']).
Proof.
  intros Hfile Hvalid Hrefresh Hsecrets Hflow.
  unfold secrets_path in *.
  unfold get_credentials, log_in, can_refresh, bind, os_path_exists_token, pickle_load_token,
    pickle_dump_token, valid, expired, refresh,
    os_getenv_credentials, from_client_secrets_file, flow_run_local_server, ret.
  repeat (cbn -[valid_at expired_at truthy_token];
          rewrite ?Hfile, ?Hvalid, ?Hrefresh, ?Hsecrets, ?Hflow).
  reflexivity.
Qed.

Lemma unusable_credential_witness :
  get_credentials (Sample.world (Some (Pickled Scenario.spent)) Sample.no_answer)
  = (Ok Sample.fresh, Sample.world (Some (Pickled Sample.fresh)) Sample.no_answer,
     [EvLoad (Pickled Scenario.spent); EvClientSecrets "credentials.json" (Ok tt);
      EvConsent SCOPES (Ok Sample.fresh); EvDump Sample.fresh]).
Proof.
  exact (unusable_credential_is_replaced_by_consent
           (Sample.world (Some (Pickled Scenario.spent)) Sample.no_answer)
           Scenario.spent Sample.fresh eq_refl eq_refl eq_refl eq_refl eq_refl).
Defined.

(** [get_credentials] leaves the clock and the collaborators as they are. *)
Lemma get_credentials_clock (w : World) :
  utcnow (world_after (get_credentials w)) = utcnow w.
Proof.
  credential_cases w; reflexivity.
Qed.

(** A valid credential on disk is returned after a read and nothing else. *)
Lemma valid_on_disk_run (w : World) (c : Credentials) :
  token_pickle w = Some (Pickled c) ->
  valid_at (utcnow w) c = true ->
  get_credentials w = (Ok c, w, [EvLoad (Pickled c)]).
Proof.
  intros Hfile Hvalid.
  unfold get_credentials, bind, os_path_exists_token, pickle_load_token, valid, ret.
  repeat (cbn -[valid_at]; rewrite ?Hfile, ?Hvalid). reflexivity.
Qed.

(** X8.  A credential that [get_credentials] returned is reused by the next
    call as long as it is valid: the next call reads the token file and
    returns the same credential, with no refresh exchange, no consent step
    and no write. *)
Theorem returned_credential_is_reused (w : World) (c : Credentials) :
  result (get_credentials w) = Ok c ->
  valid_at (utcnow w) c = true ->
  get_credentials (world_after (get_credentials w))
  = (Ok c, world_after (get_credentials w), [EvLoad (Pickled c)]).
Proof.
  intros Hrun Hvalid.
  apply valid_on_disk_run.
  - revert c Hrun Hvalid. credential_cases w; settle_run; auto.
  - rewrite get_credentials_clock. exact Hvalid.
Qed.

Lemma returned_credential_is_reused_witness :
  get_credentials (world_after (get_credentials (Sample.world (Some (Pickled Sample.stale)) Sample.no_answer)))
  = (Ok Sample.fresh,
     world_after (get_credentials (Sample.world (Some (Pickled Sample.stale)) Sample.no_answer)),
     [EvLoad (Pickled Sample.fresh)]).
Proof.
  exact (returned_credential_is_reused
           (Sample.world (Some (Pickled Sample.stale)) Sample.no_answer) Sample.fresh
           eq_refl eq_refl).
Defined.

(** ** More on the tools *)

Lemma acquire_run (name ver : string) (w : World) :
  acquire name ver w =
  match get_credentials w with
  | (Ok c, w1, log1) =>
      (Ok (mkService name ver c), w1, (log1 ++ [EvBuild (mkService name ver c)])%list)
  | (Raise e, w1, log1) => (Raise e, w1, log1)
  end.
Proof.
  unfold acquire. rewrite bind_run.
  destruct (get_credentials w) as [[[c | e] w1] log1]; reflexivity.
Qed.

(** The tails of the tools build texts only. *)
Ltac still_tail := intros; split; quiet_tail.

(** A tool of the common shape whose credential cannot be acquired. *)
Lemma tool_blocked {A} (name ver : string) (r : ApiRequest) (k : dict -> M A)
      (w : World) (e : exn) :
  result (get_credentials w) = Raise e ->
  (service <- acquire name ver ;; reply <- execute service r ;; k reply) w
  = (Raise e, world_after (get_credentials w), log (get_credentials w)).
Proof.
  intros He. rewrite tool_run, acquire_run.
  revert He. unfold result, world_after, log.
  destruct (get_credentials w) as [[[c | e0] w1] log1]; simpl; intros He;
    [ discriminate | congruence ].
Qed.

(** A tool of the common shape whose credential is acquired: the log and
    the world it leaves. *)
Lemma tool_trace {A} (name ver : string) (r : ApiRequest) (k : dict -> M A)
      (w : World) (c : Credentials) :
  result (get_credentials w) = Ok c ->
  (forall reply w', log (k reply w') = [] /\ world_after (k reply w') = w') ->
  log ((service <- acquire name ver ;; reply <- execute service r ;; k reply) w)
  = (log (get_credentials w)
       ++ [EvBuild (mkService name ver c);
           EvExecute (mkService name ver c) r (remote w (api_calls w) r)])%list /\
  world_after ((service <- acquire name ver ;; reply <- execute service r ;; k reply) w)
  = count_call (world_after (get_credentials w)).
Proof.
  intros Hc Hk. rewrite tool_run, acquire_run.
  revert Hc. unfold result at 1, world_after at 3, log at 3.
  destruct (get_credentials w) as [[[c0 | e0] w1] log1]; simpl; intros Hc; [ | discriminate ].
  injection Hc as ->.
  destruct (remote w (api_calls w) r) as [reply | e].
  - destruct (Hk reply (count_call w1)) as [Hl Hw].
    rewrite Hl, Hw. unfold log, world_after. simpl. rewrite <- app_assoc. auto.
  - unfold log, world_after. simpl. rewrite <- app_assoc. auto.
Qed.

(** X9.  When the credential cannot be acquired, no tool and no resource
    read goes any further: the invocation ends with the exception of
    [get_credentials], no handle is built and no remote call is made. *)
Theorem no_remote_call_without_credential (w : World) (e : exn) :
  result (get_credentials w) = Raise e ->
  (forall t : ToolCall,
      result (invoke t w) = Raise e /\
      log (invoke t w) = log (get_credentials w) /\
      built (log (invoke t w)) = [] /\
      executed (log (invoke t w)) = []) /\
  (forall spreadsheet_id range_name,
      result (get_sheet_resource spreadsheet_id range_name w) = Raise e /\
      log (get_sheet_resource spreadsheet_id range_name w) = log (get_credentials w)).
Proof.
  intros He.
  assert (Hquiet : built (log (get_credentials w)) = [] /\ executed (log (get_credentials w)) = []).
  { clear He. credential_cases w; auto. }
  destruct Hquiet as [Hb Hx].
  split.
  - intros t.
    assert (Hrun : invoke t w = (Raise e, world_after (get_credentials w), log (get_credentials w))).
    { destruct t; unfold invoke;
        try (apply (tool_blocked "drive" "v3"); exact He);
        try (apply (tool_blocked "sheets" "v4"); exact He).
      rewrite create_form_run. apply (tool_blocked "forms" "v1"). exact He. }
    rewrite Hrun. unfold result, log. simpl. auto.
  - intros spreadsheet_id range_name.
    assert (Hrun : get_sheet_resource spreadsheet_id range_name w
                   = (Raise e, world_after (get_credentials w), log (get_credentials w))).
    { apply (tool_blocked "sheets" "v4"). exact He. }
    rewrite Hrun. auto.
Qed.

Lemma no_remote_call_without_credential_witness :
  result (invoke (call_create_spreadsheet "Plan") (Scenario.no_secrets (Some Corrupt)))
    = Raise UnpicklingError /\
  executed (log (invoke (call_create_spreadsheet "Plan") (Scenario.no_secrets (Some Corrupt)))) = [].
Proof.
  destruct (proj1 (no_remote_call_without_credential
                     (Scenario.no_secrets (Some Corrupt)) UnpicklingError eq_refl)
                  (call_create_spreadsheet "Plan")) as [H1 [_ [_ H4]]].
  exact (conj H1 H4).
Defined.

Lemma built_app (l1 l2 : list Event) :
  built (l1 ++ l2) = (built l1 ++ built l2)%list.
Proof.
  induction l1 as [ | ev l1 IH ]; simpl; [ reflexivity | ].
  destruct ev; simpl; rewrite ?IH; reflexivity.
Qed.

(** X10.  When the credential is acquired, every tool invocation builds
    exactly one handle, for the service of the tool (file listing for
    [list_spreadsheets], forms for [create_form], tabular documents for the
    others) and with the credential just acquired; each call of
    [execute()] of the invocation goes through that handle; and the token
    file after the invocation is as [get_credentials] left it. *)
Theorem tool_builds_one_handle (t : ToolCall) (w : World) (c : Credentials) :
  result (get_credentials w) = Ok c ->
  let service :=
    match t with
    | call_list_spreadsheets _ => mkService "drive" "v3" c
    | call_create_form _ _ => mkService "forms" "v1" c
    | _ => mkService "sheets" "v4" c
    end in
  built (log (invoke t w)) = [service] /\
  (forall s r outcome, In (EvExecute s r outcome) (log (invoke t w)) -> s = service) /\
  token_pickle (world_after (invoke t w)) = token_pickle (world_after (get_credentials w)).
Proof.
  intros Hc service.
  assert (Hquiet : built (log (get_credentials w)) = [] /\
                   forall s r outcome, ~ In (EvExecute s r outcome) (log (get_credentials w))).
  { clear Hc service. credential_cases w; (split; [ reflexivity | ]);
      intros s r outcome Hin; simpl in Hin;
      repeat match goal with
             | H : _ \/ _ |- _ => destruct H
             | H : False |- _ => destruct H
             | H : _ = EvExecute _ _ _ |- _ => discriminate H
             end. }
  destruct Hquiet as [Hb Hx].
  assert (Htrace : exists r,
             log (invoke t w)
             = (log (get_credentials w)
                  ++ [EvBuild service; EvExecute service r (remote w (api_calls w) r)])%list /\
             world_after (invoke t w) = count_call (world_after (get_credentials w))).
  { subst service.
    destruct t as [ max_results | spreadsheet_id range_name | spreadsheet_id range_name values
                  | spreadsheet_id range_name values | title | title description ];
      unfold invoke; eexists.
    - apply (tool_trace "drive" "v3" _ _ w c Hc). still_tail.
    - apply (tool_trace "sheets" "v4" _ _ w c Hc). still_tail.
    - apply (tool_trace "sheets" "v4" _ _ w c Hc). still_tail.
    - apply (tool_trace "sheets" "v4" _ _ w c Hc). still_tail.
    - apply (tool_trace "sheets" "v4" _ _ w c Hc). still_tail.
    - rewrite create_form_run. apply (tool_trace "forms" "v1" _ _ w c Hc). still_tail. }
  destruct Htrace as [r [Hlog Hworld]].
  rewrite Hlog, Hworld.
  repeat split.
  - rewrite built_app, Hb. reflexivity.
  - intros s r' outcome Hin. apply in_app_or in Hin.
    destruct Hin as [Hin | [Hin | [Hin | []]]].
    + destruct (Hx s r' outcome Hin).
    + discriminate Hin.
    + injection Hin as <- _ _. reflexivity.
Qed.

Lemma tool_builds_one_handle_witness :
  built (log (invoke (call_create_form "Survey" None)
                     (Sample.world (Some (Pickled Sample.stale)) Sample.answers)))
  = [mkService "forms" "v1" Sample.fresh].
Proof.
  exact (proj1 (tool_builds_one_handle
                  (call_create_form "Survey" None)
                  (Sample.world (Some (Pickled Sample.stale)) Sample.answers)
                  Sample.fresh eq_refl)).
Defined.

(** *** list_spreadsheets *)

Lemma spreadsheet_entry_dict (f : dict) :
  (complete_file f = true /\ spreadsheet_entry (JDict f) = Ok (reported f)) \/
  (complete_file f = false /\
   exists key, In key ["name"; "id"; "webViewLink"] /\
               spreadsheet_entry (JDict f) = Raise (KeyError key)).
Proof.
  unfold complete_file, spreadsheet_entry, reported, PyOps.getitem, Py.get.
  destruct (Py.lookup "name" f) as [ n | ];
    [ | right; split; [ reflexivity | exists "name"; simpl; auto ] ].
  destruct (Py.lookup "id" f) as [ i | ];
    [ | right; split; [ reflexivity | exists "id"; simpl; auto ] ].
  destruct (Py.lookup "webViewLink" f) as [ u | ];
    [ | right; split; [ reflexivity | exists "webViewLink"; simpl; auto ] ].
  left. auto.
Qed.

Lemma comprehension_files (files : list dict) :
  (forallb complete_file files = true /\
   PyOps.comprehension spreadsheet_entry (map JDict files) = Ok (map reported files)) \/
  (forallb complete_file files = false /\
   exists key, In key ["name"; "id"; "webViewLink"] /\
               PyOps.comprehension spreadsheet_entry (map JDict files) = Raise (KeyError key)).
Proof.
  induction files as [ | f files IH ]; [ left; auto | ].
  cbn [map forallb PyOps.comprehension].
  destruct (spreadsheet_entry_dict f) as [[Hc He] | [Hc [key [Hk He]]]]; rewrite Hc, He.
  - destruct IH as [[Ha Hr] | [Ha [key [Hk Hr]]]]; rewrite Ha, Hr.
    + left. auto.
    + right. split; [ reflexivity | exists key; auto ].
  - right. split; [ reflexivity | exists key; auto ].
Qed.

(** What [list_spreadsheets] returns once the listing is answered. *)
Lemma list_spreadsheets_after_reply
      (w : World) (max_results : Z) (service : Service) (reply : dict) :
  result (get_drive_service w) = Ok service ->
  remote w (api_calls w) (files_list SPREADSHEET_QUERY max_results FILE_FIELDS) = Ok reply ->
  result (list_spreadsheets max_results w)
  = match PyOps.iter (Py.get "files" (JList []) reply) with
    | Ok items =>
        match PyOps.comprehension spreadsheet_entry items with
        | Ok spreadsheets => Ok (Json.dumps (JList spreadsheets))
        | Raise e => Raise e
        end
    | Raise e => Raise e
    end.
Proof.
  intros Hs Hr.
  change (result (acquire "drive" "v3" w) = Ok service) in Hs.
  unfold list_spreadsheets.
  etransitivity; [ apply (tool_success "drive" "v3" _ _ w service reply Hs Hr) | ].
  cbv beta. rewrite bind_lift_run.
  destruct (PyOps.iter (Py.get "files" (JList []) reply)) as [items | e]; [ | reflexivity ].
  rewrite bind_lift_run.
  destruct (PyOps.comprehension spreadsheet_entry items); reflexivity.
Qed.

(** X11.  [list_spreadsheets] applies no cap of its own: when every file of
    the reply has the three fields, it reports one entry a file, in the
    order of the reply, however many files the service sent for the page
    size asked. *)
Theorem list_spreadsheets_reports_every_file
        (w : World) (max_results : Z) (service : Service) (reply : dict) (files : list dict) :
  result (get_drive_service w) = Ok service ->
  remote w (api_calls w) (files_list SPREADSHEET_QUERY max_results FILE_FIELDS) = Ok reply ->
  Py.lookup "files" reply = Some (JList (map JDict files)) ->
  forallb complete_file files = true ->
  result (list_spreadsheets max_results w) = Ok (Json.dumps (JList (map reported files))) /\
  List.length (map reported files) = List.length files.
Proof.
  intros Hs Hr Hfiles Hall.
  rewrite (list_spreadsheets_after_reply w max_results service reply Hs Hr).
  unfold Py.get. rewrite Hfiles. simpl PyOps.iter. cbv iota.
  destruct (comprehension_files files) as [[_ Hc] | [Hn _]].
  - rewrite Hc, length_map. auto.
  - congruence.
Qed.

Lemma list_spreadsheets_reports_every_file_witness :
  result (list_spreadsheets 1 (Sample.ready Scenario.long_listing))
  = Ok (Json.dumps
          (JList [JDict [("name", JStr "n1"); ("id", JStr "i1"); ("url", JStr "u1")];
                  JDict [("name", JStr "n2"); ("id", JStr "i2"); ("url", JStr "u2")]])).
Proof.
  exact (proj1 (list_spreadsheets_reports_every_file
                  (Sample.ready Scenario.long_listing) 1 (mkService "drive" "v3" Sample.fresh)
                  [("files", JList (map JDict Scenario.two_files))] Scenario.two_files
                  eq_refl eq_refl eq_refl eq_refl)).
Defined.

(** X12.  When a file of the listing reply lacks one of [name], [id] and
    [webViewLink], [list_spreadsheets] ends with a [KeyError] for one of
    them, although the remote call succeeded: no entry is returned, not
    even for the files that are complete. *)
Theorem list_spreadsheets_incomplete_file_raises
        (w : World) (max_results : Z) (service : Service) (reply : dict) (files : list dict) :
  result (get_drive_service w) = Ok service ->
  remote w (api_calls w) (files_list SPREADSHEET_QUERY max_results FILE_FIELDS) = Ok reply ->
  Py.lookup "files" reply = Some (JList (map JDict files)) ->
  forallb complete_file files = false ->
  exists key,
    In key ["name"; "id"; "webViewLink"] /\
    result (list_spreadsheets max_results w) = Raise (KeyError key).
Proof.
  intros Hs Hr Hfiles Hsome.
  rewrite (list_spreadsheets_after_reply w max_results service reply Hs Hr).
  unfold Py.get. rewrite Hfiles. simpl PyOps.iter. cbv iota.
  destruct (comprehension_files files) as [[Ha _] | [_ [key [Hk Hc]]]].
  - congruence.
  - exists key. rewrite Hc. auto.
Qed.

Lemma list_spreadsheets_incomplete_file_witness :
  exists key,
    In key ["name"; "id"; "webViewLink"] /\
    result (list_spreadsheets 20 (Sample.ready Scenario.partial_listing)) = Raise (KeyError key).
Proof.
  exact (list_spreadsheets_incomplete_file_raises
           (Sample.ready Scenario.partial_listing) 20 (mkService "drive" "v3" Sample.fresh)
           [("files",
             JList [JDict [("id", JStr "id-1"); ("name", JStr "one"); ("webViewLink", JStr "https://x/1")];
                    JDict [("id", JStr "id-2"); ("name", JStr "two")]])]
           [[("id", JStr "id-1"); ("name", JStr "one"); ("webViewLink", JStr "https://x/1")];
            [("id", JStr "id-2"); ("name", JStr "two")]]
           eq_refl eq_refl eq_refl eq_refl).
Defined.

(** X13.  When the listing reply has no [files] field, [list_spreadsheets]
    returns the JSON text of the empty list. *)
Theorem list_spreadsheets_reply_without_files
        (w : World) (max_results : Z) (service : Service) (reply : dict) :
  result (get_drive_service w) = Ok service ->
  remote w (api_calls w) (files_list SPREADSHEET_QUERY max_results FILE_FIELDS) = Ok reply ->
  Py.lookup "files" reply = None ->
  result (list_spreadsheets max_results w) = Ok "[]".
Proof.
  intros Hs Hr Hfiles.
  rewrite (list_spreadsheets_after_reply w max_results service reply Hs Hr).
  unfold Py.get. rewrite Hfiles. reflexivity.
Qed.

Lemma list_spreadsheets_reply_without_files_witness :
  result (list_spreadsheets 20 (Sample.ready Sample.bare)) = Ok "[]".
Proof.
  exact (list_spreadsheets_reply_without_files
           (Sample.ready Sample.bare) 20 (mkService "drive" "v3" Sample.fresh) []
           eq_refl eq_refl eq_refl).
Defined.

(** *** After a successful call *)

(** A successful remote call found in the log of a tool of the common
    shape is the call of the tool, answered by the service, and the result
    of the tool is what its tail makes of the reply. *)
Lemma tool_succeeded {A} (name ver : string) (r : ApiRequest) (k : dict -> M A)
      (w : World) (r' : ApiRequest) (reply : dict) :
  (forall reply w', executed (log (k reply w')) = []) ->
  In (r', Ok reply)
     (executed (log ((service <- acquire name ver ;; reply <- execute service r ;; k reply) w))) ->
  r' = r /\
  remote w (api_calls w) r = Ok reply /\
  (exists service, result (acquire name ver w) = Ok service) /\
  result ((service <- acquire name ver ;; reply <- execute service r ;; k reply) w)
  = result (k reply (count_call (world_after (acquire name ver w)))).
Proof.
  intros Hk. rewrite (tool_executed name ver r k w Hk).
  destruct (result (acquire name ver w)) as [service | e] eqn:Hs; simpl; [ | intros [] ].
  intros [Hin | []]. injection Hin as Hr Hreply. subst r'.
  repeat split; try assumption.
  - eexists. reflexivity.
  - apply (tool_success name ver r k w service reply Hs). congruence.
Qed.

(** X14.  [create_spreadsheet] sends the title and nothing else, as
    [properties.title].  When the creation call succeeds, the text returned
    is the JSON object with the keys [spreadsheet_id] and [url], in that
    order, holding the [spreadsheetId] and [spreadsheetUrl] of the reply; a
    field the reply lacks is reported as [null], not as a failure. *)
Theorem create_spreadsheet_reports_reply_fields
        (w : World) (title : string) (r : ApiRequest) (reply : dict) :
  In (r, Ok reply) (executed (log (create_spreadsheet title w))) ->
  r = spreadsheets_create (JDict [("properties", JDict [("title", JStr title)])]) /\
  result (create_spreadsheet title w)
  = Ok (Json.dumps (JDict [("spreadsheet_id", Py.get "spreadsheetId" JNull reply);
                           ("url", Py.get "spreadsheetUrl" JNull reply)])) /\
  (Py.lookup "spreadsheetId" reply = None ->
   Py.lookup "spreadsheetUrl" reply = None ->
   result (create_spreadsheet title w)
   = Ok (Json.dumps (JDict [("spreadsheet_id", JNull); ("url", JNull)]))).
Proof.
  intros Hin.
  unfold create_spreadsheet in *.
  apply (tool_succeeded "sheets" "v4") in Hin; [ | quiet_tail ].
  destruct Hin as [Hr [_ [_ Hres]]].
  split; [ exact Hr | ].
  split; [ exact Hres | ].
  intros Hid Hurl. etransitivity; [ exact Hres | ].
  cbv beta. unfold Py.get. rewrite Hid, Hurl. reflexivity.
Qed.

Lemma create_spreadsheet_reports_reply_fields_witness :
  result (create_spreadsheet "Plan" (Sample.ready Sample.bare))
  = Ok (Json.dumps (JDict [("spreadsheet_id", JNull); ("url", JNull)])).
Proof.
  refine (proj2 (proj2 (create_spreadsheet_reports_reply_fields
                          (Sample.ready Sample.bare) "Plan"
                          (spreadsheets_create (JDict [("properties", JDict [("title", JStr "Plan")])]))
                          [] _)) eq_refl eq_refl).
  left. reflexivity.
Defined.

(** X15.  When the form creation call succeeds, [create_form] returns the
    JSON object with the keys [form_id] and [url] holding the [formId] and
    [responderUri] of the reply, [null] for a field the reply lacks; the
    description takes no part in the text returned. *)
Theorem create_form_reports_reply_fields
        (w : World) (title description : string) (r : ApiRequest) (reply : dict) :
  In (r, Ok reply) (executed (log (create_form title description w))) ->
  result (create_form title description w)
  = Ok (Json.dumps (JDict [("form_id", Py.get "formId" JNull reply);
                           ("url", Py.get "responderUri" JNull reply)])).
Proof.
  intros Hin.
  rewrite create_form_run in *.
  apply (tool_succeeded "forms" "v1") in Hin; [ | quiet_tail ].
  destruct Hin as [_ [_ [_ Hres]]].
  exact Hres.
Qed.

Lemma create_form_reports_reply_fields_witness :
  result (create_form "Survey" "About lunch" (Sample.ready Sample.answers))
  = Ok (Json.dumps (JDict [("form_id", JStr "f-1");
                           ("url", JStr "https://docs.google.com/forms/d/f-1")])).
Proof.
  refine (create_form_reports_reply_fields
            (Sample.ready Sample.answers) "Survey" "About lunch"
            (forms_create (JDict [("info", JDict [("title", JStr "Survey");
                                                   ("documentTitle", JStr "Survey");
                                                   ("description", JStr "About lunch")])]))
            [("formId", JStr "f-1"); ("responderUri", JStr "https://docs.google.com/forms/d/f-1")] _).
  left. reflexivity.
Defined.

(** *** append_sheet *)

(** X16.  After a successful append call, [append_sheet] returns a text
    exactly when the [updates] field of the reply is an object: then the
    text reports its [updatedCells], [None] when that is missing.  In every
    other case ([updates] missing, null, a text, a number, a list)
    [append_sheet] ends with an [AttributeError]. *)
Theorem append_sheet_needs_updates_object
        (w : World) (spreadsheet_id range_name : string) (values : json)
        (r : ApiRequest) (reply : dict) :
  In (r, Ok reply) (executed (log (append_sheet spreadsheet_id range_name values w))) ->
  match Py.lookup "updates" reply with
  | Some (JDict updates) =>
      result (append_sheet spreadsheet_id range_name values w)
      = Ok ("Appended " ++ Py.str (Py.get "updatedCells" JNull updates) ++ " cells")
  | _ =>
      exists msg,
        result (append_sheet spreadsheet_id range_name values w) = Raise (AttributeError msg)
  end.
Proof.
  intros Hin.
  unfold append_sheet in Hin.
  apply (tool_succeeded "sheets" "v4") in Hin; [ | quiet_tail ].
  destruct Hin as [_ [_ [_ Hres]]].
  assert (Hres' : result (append_sheet spreadsheet_id range_name values w)
                  = match PyOps.get (Py.get "updates" JNull reply) "updatedCells" with
                    | Ok cells => Ok ("Appended " ++ Py.str cells ++ " cells")
                    | Raise e => Raise e
                    end).
  { etransitivity; [ exact Hres | ].
    cbv beta. rewrite bind_lift_run.
    destruct (PyOps.get (Py.get "updates" JNull reply) "updatedCells"); reflexivity. }
  revert Hres'. unfold Py.get at 1.
  destruct (Py.lookup "updates" reply) as [ [ | b | z | s | l | updates ] | ];
    simpl; intros Hres'; try (eexists; exact Hres').
  exact Hres'.
Qed.

Lemma append_sheet_needs_updates_object_witness :
  exists msg,
    result (append_sheet "abc123" "Sheet1" Sample.grid (Sample.ready Scenario.text_updates))
    = Raise (AttributeError msg).
Proof.
  refine (append_sheet_needs_updates_object
            (Sample.ready Scenario.text_updates) "abc123" "Sheet1" Sample.grid
            (values_append "abc123" "Sheet1" "RAW" (JDict [("values", Sample.grid)]))
            [("updates", JStr "done")] _).
  left. reflexivity.
Defined.

(** *** get_sheet_resource *)

Lemma format_rows_iterable (rows : list json) (output : list string) :
  if forallb iterable rows
  then exists lines, format_rows rows output = Ok lines
  else exists msg, format_rows rows output = Raise (TypeError msg).
Proof.
  revert output.
  induction rows as [ | row rows IH ]; intros output; simpl.
  - eexists. reflexivity.
  - destruct row as [ | b | z | s | l | kv ]; simpl; try (eexists; reflexivity); apply IH.
Qed.

(** What [get_sheet_resource] returns once the fetch is answered with a
    list of rows. *)
Lemma get_sheet_resource_after_fetch
      (w : World) (spreadsheet_id range_name : string)
      (r : ApiRequest) (reply : dict) (rows : list json) :
  In (r, Ok reply) (executed (log (get_sheet_resource spreadsheet_id range_name w))) ->
  Py.lookup "values" reply = Some (JList rows) ->
  result (get_sheet_resource spreadsheet_id range_name w)
  = match format_rows rows [] with
    | Ok lines => Ok (String.concat Json.nl lines)
    | Raise e => Raise e
    end.
Proof.
  intros Hin Hvalues.
  unfold get_sheet_resource in Hin.
  apply (tool_succeeded "sheets" "v4") in Hin; [ | quiet_tail ].
  destruct Hin as [_ [_ [_ Hres]]].
  etransitivity; [ exact Hres | ].
  cbv beta. unfold Py.get. rewrite Hvalues, bind_lift_run. simpl PyOps.iter. cbv iota.
  rewrite bind_lift_run. destruct (format_rows rows []); reflexivity.
Qed.

(** X17.  [read_sheet] returns the JSON text of whatever list the fetch
    answered, but [get_sheet_resource] needs every row to be something a
    loop can run over (a list, a text or an object): it returns a text when
    all rows are, and ends with a [TypeError] when a row is a number, a
    truth value or null. *)
Theorem get_sheet_resource_needs_iterable_rows
        (w : World) (spreadsheet_id range_name : string)
        (r : ApiRequest) (reply : dict) (rows : list json) :
  In (r, Ok reply) (executed (log (get_sheet_resource spreadsheet_id range_name w))) ->
  Py.lookup "values" reply = Some (JList rows) ->
  result (read_sheet spreadsheet_id range_name w) = Ok (Json.dumps (JList rows)) /\
  if forallb iterable rows
  then exists text, result (get_sheet_resource spreadsheet_id range_name w) = Ok text
  else exists msg,
      result (get_sheet_resource spreadsheet_id range_name w) = Raise (TypeError msg).
Proof.
  intros Hin Hvalues.
  pose proof (get_sheet_resource_after_fetch w spreadsheet_id range_name r reply rows
                Hin Hvalues) as Hres'.
  unfold get_sheet_resource in Hin.
  apply (tool_succeeded "sheets" "v4") in Hin; [ | quiet_tail ].
  destruct Hin as [_ [Hr [[service Hs] _]]].
  split.
  - unfold read_sheet.
    etransitivity; [ apply (tool_success "sheets" "v4" _ _ w service reply Hs Hr) | ].
    cbv beta. unfold Py.get. rewrite Hvalues. reflexivity.
  - pose proof (format_rows_iterable rows []) as Hrows.
    destruct (forallb iterable rows).
    + destruct Hrows as [lines Hl]. rewrite Hl in Hres'. eexists. exact Hres'.
    + destruct Hrows as [msg Hm]. rewrite Hm in Hres'. eexists. exact Hres'.
Qed.

Lemma get_sheet_resource_needs_iterable_rows_witness :
  result (read_sheet "abc123" "Sheet1" (Sample.ready Scenario.odd_rows))
    = Ok (Json.dumps (JList [JList [JStr "a"]; JInt 7])) /\
  exists msg,
    result (get_sheet_resource "abc123" "Sheet1" (Sample.ready Scenario.odd_rows))
    = Raise (TypeError msg).
Proof.
  refine (get_sheet_resource_needs_iterable_rows
            (Sample.ready Scenario.odd_rows) "abc123" "Sheet1"
            (values_get "abc123" "Sheet1") [("values", JList [JList [JStr "a"]; JInt 7])]
            [JList [JStr "a"]; JInt 7] _ eq_refl).
  left. reflexivity.
Defined.

Lemma string_app_assoc (a b c : string) : (a ++ b) ++ c = a ++ b ++ c.
Proof.
  induction a as [ | x a IH ]; simpl; [ reflexivity | rewrite IH; reflexivity ].
Qed.

Lemma concat_cons (sep x : string) (l : list string) :
  l <> [] -> String.concat sep (x :: l) = x ++ sep ++ String.concat sep l.
Proof.
  destruct l; [ congruence | reflexivity ].
Qed.

Lemma concat_merge (sep a b : string) (pre post : list string) :
  String.concat sep (pre ++ a :: b :: post) = String.concat sep (pre ++ (a ++ sep ++ b) :: post).
Proof.
  induction pre as [ | x pre IH ].
  - simpl app. rewrite concat_cons by discriminate.
    destruct post as [ | y post ].
    + reflexivity.
    + rewrite (concat_cons sep b) by discriminate.
      rewrite (concat_cons sep (a ++ sep ++ b)) by discriminate.
      rewrite !string_app_assoc. reflexivity.
  - simpl app.
    rewrite !concat_cons by (destruct pre; discriminate).
    rewrite IH. reflexivity.
Qed.

Lemma format_rows_merge
      (pre post : list json) (a b : string) (rest : list json) (output : list string) :
  format_rows (JList (pre ++ JStr a :: JStr b :: post) :: rest) output
  = format_rows (JList (pre ++ JStr (a ++ " | " ++ b) :: post) :: rest) output.
Proof.
  simpl. rewrite !map_app. simpl map. rewrite concat_merge. reflexivity.
Qed.

(** X18.  The text of [get_sheet_resource] does not mark where a cell
    ends: a sheet whose first row has two neighbouring text cells [a] and
    [b], and a sheet that has the single cell [a | b] in their place, give
    the same text, so the two cannot be told apart in what is returned. *)
Theorem get_sheet_resource_separator_not_escaped
        (w1 w2 : World) (spreadsheet_id range_name : string)
        (r1 r2 : ApiRequest) (reply1 reply2 : dict)
        (pre post : list json) (a b : string) (rest : list json) :
  In (r1, Ok reply1) (executed (log (get_sheet_resource spreadsheet_id range_name w1))) ->
  In (r2, Ok reply2) (executed (log (get_sheet_resource spreadsheet_id range_name w2))) ->
  Py.lookup "values" reply1 = Some (JList (JList (pre ++ JStr a :: JStr b :: post) :: rest)) ->
  Py.lookup "values" reply2 = Some (JList (JList (pre ++ JStr (a ++ " | " ++ b) :: post) :: rest)) ->
  result (get_sheet_resource spreadsheet_id range_name w1)
  = result (get_sheet_resource spreadsheet_id range_name w2).
Proof.
  intros Hin1 Hin2 Hv1 Hv2.
  rewrite (get_sheet_resource_after_fetch w1 _ _ r1 reply1 _ Hin1 Hv1).
  rewrite (get_sheet_resource_after_fetch w2 _ _ r2 reply2 _ Hin2 Hv2).
  rewrite format_rows_merge. reflexivity.
Qed.

Lemma get_sheet_resource_separator_witness :
  result (get_sheet_resource "abc123" "Sheet1"
            (Sample.ready (fun _ _ => Ok [("values", JList [JList [JStr "a"; JStr "b"]])])))
  = result (get_sheet_resource "abc123" "Sheet1"
              (Sample.ready (fun _ _ => Ok [("values", JList [JList [JStr "a | b"]])]))).
Proof.
  refine (get_sheet_resource_separator_not_escaped
            (Sample.ready (fun _ _ => Ok [("values", JList [JList [JStr "a"; JStr "b"]])]))
            (Sample.ready (fun _ _ => Ok [("values", JList [JList [JStr "a | b"]])]))
            "abc123" "Sheet1" (values_get "abc123" "Sheet1") (values_get "abc123" "Sheet1")
            [("values", JList [JList [JStr "a"; JStr "b"]])]
            [("values", JList [JList [JStr "a | b"]])]
            [] [] "a" "b" [] _ _ eq_refl eq_refl).
  - left. reflexivity.
  - left. reflexivity.
Defined.

(** *** A corrupt token file *)

Lemma corrupt_file_run (w : World) :
  token_pickle w = Some Corrupt ->
  get_credentials w = (Raise UnpicklingError, w, [EvLoad Corrupt]).
Proof.
  intros Hfile.
  unfold get_credentials, bind, os_path_exists_token, pickle_load_token, ret.
  repeat (cbn; rewrite ?Hfile). reflexivity.
Qed.

(** X20.  A token file that cannot be deserialized disables every tool:
    each invocation ends with the deserialization exception after reading
    the file, without building a handle or calling a service, and it leaves
    the file as it is, so the next invocation fails in the same way. *)
Theorem corrupt_token_file_disables_every_tool (w : World) (t : ToolCall) :
  token_pickle w = Some Corrupt ->
  invoke t w = (Raise UnpicklingError, w, [EvLoad Corrupt]) /\
  invoke t (world_after (invoke t w)) = (Raise UnpicklingError, w, [EvLoad Corrupt]).
Proof.
  intros Hfile.
  assert (Hrun : invoke t w = (Raise UnpicklingError, w, [EvLoad Corrupt])).
  { pose proof (corrupt_file_run w Hfile) as Hc.
    assert (He : result (get_credentials w) = Raise UnpicklingError) by (rewrite Hc; reflexivity).
    assert (Hshape : invoke t w
                     = (Raise UnpicklingError, world_after (get_credentials w),
                        log (get_credentials w))).
    { destruct t; unfold invoke;
        try (apply (tool_blocked "drive" "v3"); exact He);
        try (apply (tool_blocked "sheets" "v4"); exact He).
      rewrite create_form_run. apply (tool_blocked "forms" "v1"). exact He. }
    rewrite Hshape, Hc. reflexivity. }
  split; [ exact Hrun | ].
  rewrite Hrun. unfold world_after. simpl. exact Hrun.
Qed.

Lemma corrupt_token_file_witness :
  invoke (call_list_spreadsheets None) (Sample.world (Some Corrupt) Sample.answers)
  = (Raise UnpicklingError, Sample.world (Some Corrupt) Sample.answers, [EvLoad Corrupt]).
Proof.
  exact (proj1 (corrupt_token_file_disables_every_tool
                  (Sample.world (Some Corrupt) Sample.answers)
                  (call_list_spreadsheets None) eq_refl)).
Defined.

(** ** Inside execute(): what the handle sends *)

Lemma answers_app (l1 l2 : list Transport.Exchange) :
  Transport.answers (l1 ++ l2) = (Transport.answers l1 ++ Transport.answers l2)%list.
Proof.
  induction l1 as [ | x l1 IH ]; simpl; [ reflexivity | ].
  destruct x; simpl; rewrite ?IH; reflexivity.
Qed.

(** The exchanges of [before_request] hold no sending. *)
Lemma before_request_answers (idp : Credentials -> Result Credentials) (now : Z) (c : Credentials) :
  Transport.answers (snd (Transport.before_request idp now c)) = [].
Proof.
  unfold Transport.before_request. destruct (valid_at now c); reflexivity.
Qed.

(** One call sends the request at most once more than it has refresh
    attempts, and it sends again only after a 401. *)
Lemma request_sendings (wire : nat -> ApiRequest -> Result dict)
      (idp : Credentials -> Result Credentials) (now : Z) (r : ApiRequest)
      (attempts_left : nat) :
  forall (sent : nat) (c : Credentials),
    (List.length (Transport.answers (snd (Transport.request wire idp now attempts_left sent c r)))
     <= S attempts_left)%nat /\
    Forall (fun a => Transport.unauthorized a = true)
           (removelast (Transport.answers
                          (snd (Transport.request wire idp now attempts_left sent c r)))).
Proof.
  induction attempts_left as [ | k IH ]; intros sent c; simpl;
    pose proof (before_request_answers idp now c) as Hb;
    destruct (Transport.before_request idp now c) as [[c1 | e] before]; simpl in *.
  - rewrite answers_app, Hb. simpl. split; [ lia | constructor ].
  - rewrite Hb. simpl. split; [ lia | constructor ].
  - destruct (Transport.unauthorized (wire sent r)) eqn:H401.
    + destruct (idp c1) as [c2 | e]; simpl.
      * destruct (IH (S sent) c2) as [Hlen Hall].
        rewrite answers_app, Hb. simpl.
        split; [ lia | ].
        destruct (Transport.answers (snd (Transport.request wire idp now k (S sent) c2 r)));
          [ constructor | constructor; assumption ].
      * rewrite answers_app, Hb. simpl. split; [ lia | constructor ].
    + simpl. rewrite answers_app, Hb. simpl. split; [ lia | constructor ].
  - rewrite Hb. simpl. split; [ lia | constructor ].
Qed.

(** With a valid credential, an answer other than 401 is final after one
    sending. *)
Lemma request_first_answer_final (wire : nat -> ApiRequest -> Result dict)
      (idp : Credentials -> Result Credentials) (now : Z) (r : ApiRequest)
      (attempts_left sent : nat) (c : Credentials) :
  valid_at now c = true ->
  Transport.unauthorized (wire sent r) = false ->
  Transport.request wire idp now attempts_left sent c r
  = (wire sent r, [Transport.Sent r (wire sent r)]).
Proof.
  intros Hvalid H401.
  destruct attempts_left as [ | k ]; simpl;
    unfold Transport.before_request; rewrite Hvalid; simpl; rewrite ?H401; reflexivity.
Qed.

(** [get_credentials] does not look at the remote services. *)
Lemma get_credentials_set_remote (service : nat -> ApiRequest -> Result dict) (w : World) :
  result (get_credentials (set_remote service w)) = result (get_credentials w).
Proof.
  unfold get_credentials, log_in, can_refresh, bind,
    os_path_exists_token, pickle_load_token, pickle_dump_token, valid, expired,
    refresh, os_getenv_credentials, from_client_secrets_file, flow_run_local_server, ret.
  simpl.
  credential_cases w; reflexivity.
Qed.

(** A tool of the common shape in a world reached through the transport:
    its one call of [execute()] has the outcome the transport gets. *)
Lemma tool_over {A} (name ver : string) (r : ApiRequest) (k : dict -> M A)
      (wire : nat -> nat -> ApiRequest -> Result dict) (c : Credentials) (w : World) :
  (forall reply w', executed (log (k reply w')) = []) ->
  result (get_credentials w) = Ok c ->
  executed (log ((service <- acquire name ver ;; reply <- execute service r ;; k reply)
                   (Transport.over wire c w)))
  = [(r, fst (Transport.request (wire (api_calls w)) (idp_refresh w) (utcnow w)
                                Transport.max_refresh_attempts 0 c r))].
Proof.
  intros Hk Hc.
  rewrite (tool_executed name ver r k _ Hk).
  assert (Hs : result (acquire name ver (Transport.over wire c w)) = Ok (mkService name ver c)).
  { rewrite acquire_run.
    pose proof (get_credentials_set_remote
                  (fun n r0 => fst (Transport.request (wire n) (idp_refresh w) (utcnow w)
                                                      Transport.max_refresh_attempts 0 c r0)) w) as Hg.
    fold (Transport.over wire c w) in Hg. rewrite Hc in Hg.
    revert Hg. unfold result.
    destruct (get_credentials (Transport.over wire c w)) as [[[c0 | e0] w1] log1]; simpl;
      intros Hg; [ congruence | discriminate ]. }
  rewrite Hs. reflexivity.
Qed.

(** C6, as the code has it.  A tool calls [execute()] at most once in an
    invocation and has no handler around it: when the call fails, the
    invocation ends with that exception and returns no text.  The call
    itself is not always one request.  Through the handle, which holds the
    credential just acquired, the request is sent, and sent again after a
    credential refresh each time the service answers 401, at most three
    times in all; the outcome of [execute()] is the outcome of that run.
    With a valid credential, an answer other than 401 is final: such a
    failure ends the invocation after one request. *)
Theorem C6_execute_failure_propagates_resend_on_401 (t : ToolCall) (w : World) :
  (List.length (executed (log (invoke t w))) <= 1)%nat /\
  (forall r e, In (r, Raise e) (executed (log (invoke t w))) -> result (invoke t w) = Raise e) /\
  forall (wire : nat -> nat -> ApiRequest -> Result dict) (c : Credentials),
    result (get_credentials w) = Ok c ->
    exists r : ApiRequest,
      executed (log (invoke t (Transport.over wire c w)))
      = [(r, fst (Transport.request (wire (api_calls w)) (idp_refresh w) (utcnow w)
                                    Transport.max_refresh_attempts 0 c r))] /\
      (List.length
         (Transport.answers
            (snd (Transport.request (wire (api_calls w)) (idp_refresh w) (utcnow w)
                                    Transport.max_refresh_attempts 0 c r))) <= 3)%nat /\
      Forall (fun a => Transport.unauthorized a = true)
             (removelast
                (Transport.answers
                   (snd (Transport.request (wire (api_calls w)) (idp_refresh w) (utcnow w)
                                           Transport.max_refresh_attempts 0 c r)))) /\
      (valid_at (utcnow w) c = true ->
       Transport.unauthorized (wire (api_calls w) 0%nat r) = false ->
       Transport.request (wire (api_calls w)) (idp_refresh w) (utcnow w)
                         Transport.max_refresh_attempts 0 c r
       = (wire (api_calls w) 0%nat r, [Transport.Sent r (wire (api_calls w) 0%nat r)])).
Proof.
  assert (Hcall : (List.length (executed (log (invoke t w))) <= 1)%nat /\
                  forall r e, In (r, Raise e) (executed (log (invoke t w))) ->
                              result (invoke t w) = Raise e).
  { destruct t; unfold invoke;
      try (apply (tool_executes_once "drive" "v3"); quiet_tail);
      try (apply (tool_executes_once "sheets" "v4"); quiet_tail).
    rewrite create_form_run. apply (tool_executes_once "forms" "v1"). quiet_tail. }
  destruct Hcall as [Hone Hfail].
  split; [ exact Hone | split; [ exact Hfail | ] ].
  intros wire c Hc.
  assert (Hexe : exists r : ApiRequest,
             executed (log (invoke t (Transport.over wire c w)))
             = [(r, fst (Transport.request (wire (api_calls w)) (idp_refresh w) (utcnow w)
                                           Transport.max_refresh_attempts 0 c r))]).
  { destruct t as [ max_results | spreadsheet_id range_name | spreadsheet_id range_name values
                  | spreadsheet_id range_name values | title | title description ];
      unfold invoke; eexists.
    - apply (tool_over "drive" "v3"); [ quiet_tail | exact Hc ].
    - apply (tool_over "sheets" "v4"); [ quiet_tail | exact Hc ].
    - apply (tool_over "sheets" "v4"); [ quiet_tail | exact Hc ].
    - apply (tool_over "sheets" "v4"); [ quiet_tail | exact Hc ].
    - apply (tool_over "sheets" "v4"); [ quiet_tail | exact Hc ].
    - rewrite create_form_run. apply (tool_over "forms" "v1"); [ quiet_tail | exact Hc ]. }
  destruct Hexe as [r Hexe]. exists r.
  destruct (request_sendings (wire (api_calls w)) (idp_refresh w) (utcnow w) r
                             Transport.max_refresh_attempts 0 c) as [Hlen Hall].
  split; [ exact Hexe | ].
  split; [ exact Hlen | ].
  split; [ exact Hall | ].
  apply request_first_answer_final.
Qed.

Lemma C6_witness :
  executed (log (invoke (call_append_sheet "abc123" "Sheet1" Sample.grid)
                        (Transport.over Scenario.unavailable Sample.fresh
                                        (Sample.ready Sample.no_answer))))
    = [(values_append "abc123" "Sheet1" "RAW" (JDict [("values", Sample.grid)]),
        Raise (External "HttpError" "503"))] /\
  Transport.request (Scenario.unavailable 0%nat) (fun _ => Ok Sample.fresh) 1200
                    Transport.max_refresh_attempts 0 Sample.fresh
                    (values_append "abc123" "Sheet1" "RAW" (JDict [("values", Sample.grid)]))
    = (Raise (External "HttpError" "503"),
       [Transport.Sent (values_append "abc123" "Sheet1" "RAW" (JDict [("values", Sample.grid)]))
                       (Raise (External "HttpError" "503"))]) /\
  result (invoke (call_append_sheet "abc123" "Sheet1" Sample.grid)
                 (Transport.over Scenario.unavailable Sample.fresh (Sample.ready Sample.no_answer)))
    = Raise (External "HttpError" "503").
Proof.
  pose proof (C6_execute_failure_propagates_resend_on_401
                (call_append_sheet "abc123" "Sheet1" Sample.grid)
                (Transport.over Scenario.unavailable Sample.fresh (Sample.ready Sample.no_answer)))
    as [_ [Hfail _]].
  destruct (C6_execute_failure_propagates_resend_on_401
              (call_append_sheet "abc123" "Sheet1" Sample.grid)
              (Sample.ready Sample.no_answer)) as [_ [_ Hwire]].
  destruct (Hwire Scenario.unavailable Sample.fresh eq_refl) as [r [Hexe [_ [_ Hfinal]]]].
  split; [ reflexivity | split; [ reflexivity | ] ].
  apply (Hfail (values_append "abc123" "Sheet1" "RAW" (JDict [("values", Sample.grid)]))).
  left. reflexivity.
Defined.

(** C6, as stated, fails.  The service answers 401 to the first request of
    [read_sheet] and accepts the second: the remote call has failed, yet the
    invocation sends the request again after a refresh exchange and returns
    a text. *)
Lemma C6_counterexample :
  Scenario.rejected_once 0%nat 0%nat (values_get "abc123" "Sheet1")
    = Raise (External "HttpError" "401") /\
  snd (Transport.request (Scenario.rejected_once 0%nat) (fun _ => Ok Sample.fresh) 1200
                         Transport.max_refresh_attempts 0 Sample.fresh
                         (values_get "abc123" "Sheet1"))
    = [Transport.Sent (values_get "abc123" "Sheet1") (Raise (External "HttpError" "401"));
       Transport.Refreshed Sample.fresh (Ok Sample.fresh);
       Transport.Sent (values_get "abc123" "Sheet1")
                      (Sample.answers 1%nat (values_get "abc123" "Sheet1"))] /\
  result (invoke (call_read_sheet "abc123" None)
                 (Transport.over Scenario.rejected_once Sample.fresh
                                 (Sample.ready Sample.no_answer)))
    = Ok (Json.dumps (JList [JList [JStr "a"; JStr "b"]; JList [JStr "c"]])).
Proof.
  repeat split; reflexivity.
Qed.
